(** * converter-react: server-side bootstrap middleware

    A shallow embedding of [src/server/middleware.js]: the query-string
    parser [_getQueryBootstrap] and the two middleware factories
    [flux.fetch] ("fetch first", one Flux singleton shared by all requests)
    and [flux.actions] (one Flux instance and one [ActionListeners] per
    request).

    JavaScript values are modelled as follows.
    - [req.query] and [res.locals] are objects used as maps from property
      names to strings: [gmap string string]; a missing property
      ([undefined]) is a lookup that returns [None].
    - A string is a [string]; [":"] is one ASCII character, so splitting on
      it is the same on bytes as on UTF-16 code units.
    - A value that is a string or [undefined] is an [option string].
    - Calls to the collaborators that live outside this file (the Flux
      instance, [ActionListeners], [ReactDOMServer], the API client and the
      [next] continuation of the host framework) are recorded, oldest first,
      in a log that is part of the state.
    - Rendering runs the code of the component and may throw. A block of
      statements that may throw returns what it threw, and the statements
      after a throwing call are skipped, as in the source, which has no
      [try] of its own: in the fetch-first handler the exception reaches
      [.catch], in the actions handler it leaves the dispatch. *)

From Stdlib Require Import Ascii String.
From stdpp Require Import base strings list gmap.

Open Scope string_scope.

(** ** JavaScript primitives used by the source *)

Module JS.

(** [!s] for a string [s]: only the empty string is falsy. *)
Definition not_string (s : string) : bool :=
  match s with
  | EmptyString => true
  | String _ _ => false
  end.

(** [v === s] for a value [v] that is a string or [undefined]. *)
Definition strict_eq (v : option string) (s : string) : bool :=
  match v with
  | None => false
  | Some v => String.eqb v s
  end.

(** [s.split(sep)] for a separator of one character: the segments between
    the occurrences of [sep], in order; a string without [sep] (also the
    empty string) gives one segment. *)
Fixpoint split (sep : ascii) (s : string) : list string :=
  match s with
  | EmptyString => [EmptyString]
  | String c rest =>
      if Ascii.eqb c sep then EmptyString :: split sep rest
      else match split sep rest with
           | [] => [String c EmptyString]
           | seg :: segs => String c seg :: segs
           end
  end.

End JS.

(** [c] does not occur in [s]. *)
Fixpoint free_of (c : ascii) (s : string) : bool :=
  match s with
  | EmptyString => true
  | String d rest => negb (Ascii.eqb d c) && free_of c rest
  end.

(** The prefix of [s] before the first [c] (all of [s] when [c] does not
    occur). *)
Fixpoint before_first (c : ascii) (s : string) : string :=
  match s with
  | EmptyString => EmptyString
  | String d rest => if Ascii.eqb d c then EmptyString
                     else String d (before_first c rest)
  end.

(** ** The request and the parsed bootstrap instruction *)

Record Request := { query : gmap string string }.

Record QueryBootstrap := { types : string; value : option string }.

(** [_getQueryBootstrap] (middleware.js, lines 9-24). [parts[0]] and
    [parts[1]] are array reads: [undefined] past the end of the array. *)
Definition _getQueryBootstrap (req : Request) : option QueryBootstrap :=
  match query req !! "__bootstrap" with
  | None => None
  | Some bootstrap =>
      if JS.not_string bootstrap then None
      else
        let parts := JS.split ":" bootstrap in
        let types := parts !! 0%nat in
        let value := parts !! 1%nat in
        match types with
        | None => None
        | Some types =>
            if JS.not_string types then None
            else Some {| types := types; value := value |}
        end
  end.

(** A request whose query holds the given [__bootstrap] value (and,
    optionally, a [__mode]). *)
Definition request (mode : option string) (bootstrap : option string) : Request :=
  {| query :=
       match mode with Some m => <["__mode" := m]> | None => id end
         (match bootstrap with Some b => {["__bootstrap" := b]} | None => ∅ end) |}.

(** ** The Convert button ([src/client/components/convert.jsx])

    The properties the component reads. Both are declared as optional
    objects ([React.PropTypes.object]), so either may be [undefined], and
    any object passes the check. Of [ConvertStore] the handler reads the
    fields [types] and [value]. Of [ConvertActions] it calls
    [fetchConversions]: the property is [undefined], or an object without
    a callable [fetchConversions], or an object whose [fetchConversions] is
    the action of the Flux instance. *)
Module ConvertProps.

Record Store := { types : string; value : option string }.

Inductive Actions :=
| actions_undefined
| without_fetchConversions
| with_fetchConversions.

Record t := { ConvertActions : Actions; ConvertStore : option Store }.

End ConvertProps.

(** How a call of a JavaScript function ends. *)
Inductive Completion :=
| returned
| threw_TypeError.

(** ** Collaborators

    The Flux class ([src/client/flux], built on Alt), its actions and store,
    [ReactDOMServer] and the API client are used by the middleware but are
    not part of it; the middleware is modelled over any implementation of
    them. *)

(** The action symbols of [ConvertActions]. *)
Inductive ActionId :=
| UPDATE_CONVERSIONS
| CONVERSION_ERROR
| SET_CONVERSION_TYPES
| SET_CONVERSION_VALUE.

(** [symbol === payload.action] on action symbols. *)
Definition ActionId_eqb (a b : ActionId) : bool :=
  match a, b with
  | UPDATE_CONVERSIONS, UPDATE_CONVERSIONS
  | CONVERSION_ERROR, CONVERSION_ERROR
  | SET_CONVERSION_TYPES, SET_CONVERSION_TYPES
  | SET_CONVERSION_VALUE, SET_CONVERSION_VALUE => true
  | _, _ => false
  end.

(** What the dispatcher delivers: an action symbol with its data. *)
Inductive Payload (Conversions Error : Type) :=
| updateConversions (conversions : Conversions)
| conversionError (err : Error)
| setConversionTypes (types : string)
| setConversionValue (value : option string).

Arguments updateConversions {Conversions Error} conversions.
Arguments conversionError {Conversions Error} err.
Arguments setConversionTypes {Conversions Error} types.
Arguments setConversionValue {Conversions Error} value.

Definition action {Conversions Error} (p : Payload Conversions Error) : ActionId :=
  match p with
  | updateConversions _ => UPDATE_CONVERSIONS
  | conversionError _ => CONVERSION_ERROR
  | setConversionTypes _ => SET_CONVERSION_TYPES
  | setConversionValue _ => SET_CONVERSION_VALUE
  end.

(** The first argument a listener receives ([payload.data]), seen as the
    [err] parameter of [_done]: only the error action carries one. *)
Definition data_as_err {Conversions Error} (p : Payload Conversions Error) : option Error :=
  match p with
  | conversionError err => Some err
  | _ => None
  end.

(** The contract of the collaborators: a store with [bootstrap],
    [takeSnapshot] and [flush], the handlers the store binds to the
    actions, rendering of a component over a Flux instance, and
    [JSON.stringify] of the object [{ConvertStore: {conversions, types,
    value}}]. [takeSnapshot] and rendering only read the store.

    Rendering runs the code of the component, which may throw:
    [ReactDOMServer_renderToString_throws C f] is the value the call throws
    on the store [f], if it throws; when it is [None] the call returns
    [ReactDOMServer_renderToString C f]. The calls into the Flux library,
    [JSON.stringify] of the three values and the continuation [next] are
    taken to return. *)
Class Collaborators (Conversions Error Store Component : Type) := {
  Flux_new : Store;
  Flux_bootstrap : string -> Store -> Store;
  Flux_takeSnapshot : Store -> string;
  Flux_flush : Store -> Store;
  Flux_handle : Payload Conversions Error -> Store -> Store;
  ReactDOMServer_renderToString : Component -> Store -> string;
  ReactDOMServer_renderToString_throws : Component -> Store -> option Error;
  JSON_stringify : Conversions -> string -> option string -> string
}.

(** How the promise returned by the API client settles. *)
Inductive Settled (Conversions Error : Type) :=
| fulfilled (conversions : Conversions)
| rejected (err : Error).

Arguments fulfilled {Conversions Error} conversions.
Arguments rejected {Conversions Error} err.

(** The observable effects of a handler, in the order they happen. *)
Inductive Effect (Error Component : Type) :=
| call_next (err : option Error)
| call_new_Flux
| call_api_fetchConversions (types : string) (value : option string)
| call_bootstrap (data : string)
| call_takeSnapshot
| call_renderToString (C : Component)
| call_flush
| call_addActionListener (symbol : ActionId)
| call_removeAllActionListeners
| call_setConversionTypes (types : string)
| call_setConversionValue (value : option string)
| call_fetchConversions (types : string) (value : option string)
| assign_locals (key value : string).

Arguments call_next {Error Component} err.
Arguments call_new_Flux {Error Component}.
Arguments call_api_fetchConversions {Error Component} types value.
Arguments call_bootstrap {Error Component} data.
Arguments call_takeSnapshot {Error Component}.
Arguments call_renderToString {Error Component} C.
Arguments call_flush {Error Component}.
Arguments call_addActionListener {Error Component} symbol.
Arguments call_removeAllActionListeners {Error Component}.
Arguments call_setConversionTypes {Error Component} types.
Arguments call_setConversionValue {Error Component} value.
Arguments call_fetchConversions {Error Component} types value.
Arguments assign_locals {Error Component} key value.

(** The two functions the actions middleware registers as listeners, with
    the variables they close over: the anonymous function of lines 161-173
    closes over [req] and [Component]; [_done] (lines 147-151) only over
    [listener], [flux] and [next], which live in the state. *)
Inductive Handler (Component : Type) :=
| snapshot_listener (req : Request) (C : Component)
| done_listener.

Arguments snapshot_listener {Component} req C.
Arguments done_listener {Component}.

(** One registration of an [ActionListeners] instance: the dispatch token,
    the symbol listened for and the function to call. *)
Record Listener (Component : Type) := {
  token : nat;
  symbol : ActionId;
  handler : Handler Component
}.

Arguments token {Component} l.
Arguments symbol {Component} l.
Arguments handler {Component} l.

(** The state a handler runs in: the Flux instance it closes over (the
    singleton of [fetch], the per-request instance of [actions]), the
    registrations of its [ActionListeners], the counter of dispatch tokens,
    [res.locals] of the request being served, and the effects so far. *)
Record State (Error Store Component : Type) := {
  flux : Store;
  listeners : list (Listener Component);
  tokens : nat;
  locals : gmap string string;
  log : list (Effect Error Component)
}.

Arguments flux {Error Store Component} s.
Arguments listeners {Error Store Component} s.
Arguments tokens {Error Store Component} s.
Arguments locals {Error Store Component} s.
Arguments log {Error Store Component} s.

(** ** The middleware *)

Section Middleware.

Context {Conversions Error Store Component : Type}.
Context `{!Collaborators Conversions Error Store Component}.

(** A computation that runs in a [State] and returns an [A]. *)
Definition M (A : Type) : Type :=
  State Error Store Component -> A * State Error Store Component.

Global Instance M_ret : MRet M := fun A a s => (a, s).
Global Instance M_bind : MBind M :=
  fun A B k m s => let (a, s') := m s in k a s'.

Definition exec {A} (m : M A) (s : State Error Store Component) :
  State Error Store Component := snd (m s).

Definition get : M (State Error Store Component) := fun s => (s, s).

Definition emit (e : Effect Error Component) : M unit := fun s =>
  (tt, {| flux := flux s; listeners := listeners s; tokens := tokens s;
          locals := locals s; log := log s ++ [e] |}).

Definition set_flux (f : Store) : M unit := fun s =>
  (tt, {| flux := f; listeners := listeners s; tokens := tokens s;
          locals := locals s; log := log s |}).

Definition set_listeners (ls : list (Listener Component)) (n : nat) : M unit :=
  fun s =>
  (tt, {| flux := flux s; listeners := ls; tokens := n;
          locals := locals s; log := log s |}).

Definition set_locals (m : gmap string string) : M unit := fun s =>
  (tt, {| flux := flux s; listeners := listeners s; tokens := tokens s;
          locals := m; log := log s |}).

(** [next()] and [next(err)]: the callee reads its first parameter, which is
    [undefined] ([None]) in [next()] and in [next(undefined)] alike. *)
Definition next (err : option Error) : M unit := emit (call_next err).

(** [res.locals[key] = value]. *)
Definition assign (key value : string) : M unit :=
  s ← get;
  set_locals (<[key := value]> (locals s)) ;;
  emit (assign_locals key value).

(** [new Flux()]: a new store with a dispatcher of its own, on which
    nothing is registered yet. *)
Definition new_Flux : M unit :=
  emit call_new_Flux ;;
  set_flux Flux_new ;;
  set_listeners [] 0.

Definition flux_bootstrap (data : string) : M unit :=
  emit (call_bootstrap data) ;;
  s ← get;
  set_flux (Flux_bootstrap data (flux s)).

Definition flux_takeSnapshot : M string :=
  emit call_takeSnapshot ;;
  s ← get;
  mret (Flux_takeSnapshot (flux s)).

Definition flux_flush : M unit :=
  emit call_flush ;;
  s ← get;
  set_flux (Flux_flush (flux s)).

(** [ReactDOMServer.renderToString(new Component({ flux: flux }))]: the
    markup ([inr]), or the value thrown ([inl]). *)
Definition renderToString (C : Component) : M (Error + string) :=
  emit (call_renderToString C) ;;
  s ← get;
  mret (match ReactDOMServer_renderToString_throws C (flux s) with
        | Some err => inl err
        | None => inr (ReactDOMServer_renderToString C (flux s))
        end).

(** A block of statements that may throw returns what it threw:
    [Some err] when an exception left it, [None] when it ran to its end.
    [and_then m k] is [m] followed by [k]: when [m] throws, [k] is skipped
    and the exception goes on to the caller. *)
Definition and_then (m k : M (option Error)) : M (option Error) :=
  thrown ← m;
  match thrown with
  | Some err => mret (Some err)
  | None => k
  end.

(** [fetchConversions(types, value)] of the API client: the call is
    recorded; how the promise settles is decided by the environment. *)
Definition api_fetchConversions (types : string) (value : option string) : M unit :=
  emit (call_api_fetchConversions types value).

(** [promise.then(onFulfilled).catch(onRejected)] once the promise has
    settled: [onRejected] runs when the promise is rejected, and also when
    [onFulfilled] throws, with the value thrown. *)
Definition then_catch (onFulfilled : Conversions -> M (option Error))
    (onRejected : Error -> M unit) (r : Settled Conversions Error) : M unit :=
  match r with
  | fulfilled conversions =>
      thrown ← onFulfilled conversions;
      match thrown with
      | Some err => onRejected err
      | None => mret tt
      end
  | rejected err => onRejected err
  end.

(** [req.query.__mode === "noss"]. *)
Definition mode_is_noss (req : Request) : bool :=
  JS.strict_eq (query req !! "__mode") "noss".

(** *** Fetch-first strategy (lines 57-100) *)

(** The guarded rendering of both handlers (lines 85-91 and 167-170):
    when the call throws, the assignment is not made. *)
Definition render_if_requested (C : Component) (req : Request) : M (option Error) :=
  if negb (mode_is_noss req) then
    rendered ← renderToString C;
    match rendered with
    | inl err => mret (Some err)
    | inr markup => assign "bootstrapComponent" markup ;; mret None
    end
  else mret None.

(** The function given to [.then] (lines 73-97). *)
Definition fetch_onFulfilled (C : Component) (req : Request)
    (types : string) (value : option string) (conversions : Conversions) :
    M (option Error) :=
  flux_bootstrap (JSON_stringify conversions types value) ;;
  snapshot ← flux_takeSnapshot;
  assign "bootstrapData" snapshot ;;
  and_then (render_if_requested C req)
    (flux_flush ;;
     next None ;;
     mret None).

(** The function given to [.catch] (line 98). *)
Definition fetch_onRejected (err : Error) : M unit := next (Some err).

(** The request handler (lines 61-99). It returns [None] when it has
    finished synchronously, and otherwise the reaction that runs when the
    promise of the API client settles. *)
Definition fetch_handler (C : Component) (req : Request) :
    M (option (Settled Conversions Error -> M unit)) :=
  if mode_is_noss req then next None ;; mret None
  else
    match _getQueryBootstrap req with
    | None => next None ;; mret None
    | Some queryBootstrap =>
        let types := types queryBootstrap in
        let value := value queryBootstrap in
        api_fetchConversions types value ;;
        mret (Some (then_catch (fetch_onFulfilled C req types value)
                               fetch_onRejected))
    end.

(** The factory: one Flux singleton, closed over by the handler. *)
Definition fetch (C : Component) :
    M (Request -> M (option (Settled Conversions Error -> M unit))) :=
  new_Flux ;;
  mret (fetch_handler C).

(** *** Actions strategy (lines 129-191) *)

(** [new ActionListeners(flux)]: no registration yet. *)
Definition new_ActionListeners : M unit :=
  s ← get;
  set_listeners [] (tokens s).

(** [listener.addActionListener(symbol, handler)]: registers on the
    dispatcher and remembers the token. *)
Definition addActionListener (symbol : ActionId) (h : Handler Component) : M unit :=
  emit (call_addActionListener symbol) ;;
  s ← get;
  set_listeners
    (listeners s ++ [{| token := tokens s; symbol := symbol; handler := h |}])
    (S (tokens s)).

(** [listener.removeAllActionListeners()]: unregisters every token. *)
Definition removeAllActionListeners : M unit :=
  emit call_removeAllActionListeners ;;
  s ← get;
  set_listeners [] (tokens s).

(** [_done] (lines 147-151). *)
Definition _done (err : option Error) : M unit :=
  removeAllActionListeners ;;
  flux_flush ;;
  next err.

(** The listener for [UPDATE_CONVERSIONS] (lines 161-173). *)
Definition on_UPDATE_CONVERSIONS (C : Component) (req : Request) : M (option Error) :=
  snapshot ← flux_takeSnapshot;
  assign "bootstrapData" snapshot ;;
  and_then (render_if_requested C req)
    (_done None ;;
     mret None).

(** Calling a registered function with the data of the payload. *)
Definition call_handler (h : Handler Component)
    (p : Payload Conversions Error) : M (option Error) :=
  match h with
  | snapshot_listener req C => on_UPDATE_CONVERSIONS C req
  | done_listener => _done (data_as_err p) ;; mret None
  end.

Definition registered (t : nat) (ls : list (Listener Component)) : bool :=
  existsb (fun l => Nat.eqb (token l) t) ls.

(** The dispatcher walks the registrations it had when the dispatch
    started; one that was unregistered in the meantime is skipped; a
    listener runs its function when the symbol is its own. When a function
    throws, the walk stops and the exception leaves the dispatch. *)
Fixpoint invoke (ls : list (Listener Component))
    (p : Payload Conversions Error) : M (option Error) :=
  match ls with
  | [] => mret None
  | l :: rest =>
      s ← get;
      and_then
        (if registered (token l) (listeners s)
            && ActionId_eqb (symbol l) (action p)
         then call_handler (handler l) p
         else mret None)
        (invoke rest p)
  end.

(** Dispatch of one payload on the Flux instance: the store, registered
    when the instance was built, handles it first, then the listeners. The
    result is what a listener threw, if one did. *)
Definition dispatch (p : Payload Conversions Error) : M (option Error) :=
  s ← get;
  set_flux (Flux_handle p (flux s)) ;;
  s ← get;
  invoke (listeners s) p.

(** The actions of [ConvertActions]. The two setters dispatch at once; the
    third starts the asynchronous fetch, whose outcome the environment
    dispatches later as [updateConversions] or [conversionError]. *)
Definition actions_setConversionTypes (types : string) : M (option Error) :=
  emit (call_setConversionTypes types) ;;
  dispatch (setConversionTypes types).

Definition actions_setConversionValue (value : option string) : M (option Error) :=
  emit (call_setConversionValue value) ;;
  dispatch (setConversionValue value).

Definition actions_fetchConversions (types : string) (value : option string) : M unit :=
  emit (call_fetchConversions types value).

(** The request handler (lines 130-190). The result is [None] when the
    handler returns, and what it threw otherwise. *)
Definition actions (C : Component) (req : Request) : M (option Error) :=
  if mode_is_noss req then next None ;; mret None
  else
    match _getQueryBootstrap req with
    | None => next None ;; mret None
    | Some queryBootstrap =>
        let types := types queryBootstrap in
        let value := value queryBootstrap in
        new_Flux ;;
        new_ActionListeners ;;
        (* var actions = flux.getActions("ConvertActions"): a read *)
        addActionListener UPDATE_CONVERSIONS (snapshot_listener req C) ;;
        addActionListener CONVERSION_ERROR done_listener ;;
        and_then (actions_setConversionTypes types)
          (and_then (actions_setConversionValue value)
             (actions_fetchConversions types value ;;
              mret None))
    end.

(** ** Runs *)

(** A response whose [locals] holds [l], nothing logged yet. *)
Definition serving (f : Store) (l : gmap string string) :
    State Error Store Component :=
  {| flux := f; listeners := []; tokens := 0; locals := l; log := [] |}.

(** A handler of the fetch-first factory run up to the settlement [r] of
    the promise, if it started a fetch. *)
Definition settle
    (handler : Request -> M (option (Settled Conversions Error -> M unit)))
    (req : Request) (r : Settled Conversions Error) : M unit :=
  k ← handler req;
  match k with
  | None => mret tt
  | Some reaction => reaction r
  end.

(** One request through the fetch-first handler. *)
Definition fetch_run (C : Component) (req : Request)
    (r : Settled Conversions Error) : M unit :=
  settle (fetch_handler C) req r.

(** Payloads dispatched one after the other by the environment, each in a
    turn of its own: an exception that leaves a dispatch goes to the
    environment and does not stop the later dispatches. *)
Fixpoint dispatch_all (ps : list (Payload Conversions Error)) : M unit :=
  match ps with
  | [] => mret tt
  | p :: rest => dispatch p ;; dispatch_all rest
  end.

(** One request through the actions handler, followed by the payloads the
    environment dispatches on the Flux instance of the request. *)
Definition actions_run (C : Component) (req : Request)
    (ps : list (Payload Conversions Error)) : M unit :=
  actions C req ;; dispatch_all ps.

(** Serving one request with a fresh response ([res.locals] empty) on a
    handler of the fetch-first factory, to completion; the result is
    [res.locals] as the next middleware finds it. *)
Definition serve
    (handler : Request -> M (option (Settled Conversions Error -> M unit)))
    (req : Request) (r : Settled Conversions Error) : M (gmap string string) :=
  set_locals ∅ ;;
  settle handler req r ;;
  s ← get;
  mret (locals s).

(** Two requests, one after the other and not interleaved, on the handler
    of one call of the factory. *)
Definition two_requests (C : Component)
    (req1 : Request) (r1 : Settled Conversions Error)
    (req2 : Request) (r2 : Settled Conversions Error) :
    M (gmap string string * gmap string string) :=
  handler ← fetch C;
  locals1 ← serve handler req1 r1;
  locals2 ← serve handler req2 r2;
  mret (locals1, locals2).

(** [s] with the effects [es] appended to its log. *)
Definition logged (es : list (Effect Error Component))
    (s : State Error Store Component) : State Error Store Component :=
  {| flux := flux s; listeners := listeners s; tokens := tokens s;
     locals := locals s; log := log s ++ es |}.

(** [s] with the store [f]. *)
Definition with_flux (f : Store) (s : State Error Store Component) :
    State Error Store Component :=
  {| flux := f; listeners := listeners s; tokens := tokens s;
     locals := locals s; log := log s |}.

(** The registrations of a request of the actions strategy that waits for
    the outcome of its asynchronous action. *)
Definition waiting (C : Component) (req : Request) : list (Listener Component) :=
  [ {| token := 0; symbol := UPDATE_CONVERSIONS;
       handler := snapshot_listener req C |};
    {| token := 1; symbol := CONVERSION_ERROR; handler := done_listener |} ].

(** The store after it has handled the payloads [ps], oldest first. *)
Definition store_after (ps : list (Payload Conversions Error)) (f : Store) : Store :=
  fold_left (fun f p => Flux_handle p f) ps f.


(** What the actions handler has done when it returns, for the
    instruction [qb]. *)
Definition fired (qb : QueryBootstrap) : list (Effect Error Component) :=
  [call_new_Flux;
   call_addActionListener UPDATE_CONVERSIONS;
   call_addActionListener CONVERSION_ERROR;
   call_setConversionTypes (types qb);
   call_setConversionValue (value qb);
   call_fetchConversions (types qb) (value qb)].

(** The state of a request of the actions strategy that has fired its
    actions for [qb], has since seen the payloads [pre] (none of them an
    outcome) and still waits. *)
Definition waiting_state (C : Component) (req : Request) (qb : QueryBootstrap)
    (pre : list (Payload Conversions Error)) (l : gmap string string) :
    State Error Store Component :=
  {| flux := store_after (setConversionTypes (types qb)
                          :: setConversionValue (value qb) :: pre) Flux_new;
     listeners := waiting C req;
     tokens := 2;
     locals := l;
     log := fired qb |}.

(** The payloads that end a request of the actions strategy. *)
Definition terminal (p : Payload Conversions Error) : bool :=
  match p with
  | updateConversions _ | conversionError _ => true
  | _ => false
  end.

(** What the success listener of a waiting request throws when the payload
    [p] is dispatched and the store has reached the state [f]: only the
    success payload runs the rendering. *)
Definition outcome_throws (C : Component) (p : Payload Conversions Error)
    (f : Store) : option Error :=
  match p with
  | updateConversions _ => ReactDOMServer_renderToString_throws C f
  | _ => None
  end.

Definition is_next (e : Effect Error Component) : bool :=
  match e with call_next _ => true | _ => false end.

Definition is_removeAllActionListeners (e : Effect Error Component) : bool :=
  match e with call_removeAllActionListeners => true | _ => false end.

Definition is_flush (e : Effect Error Component) : bool :=
  match e with call_flush => true | _ => false end.

Definition is_assign (key : string) (e : Effect Error Component) : bool :=
  match e with assign_locals k _ => String.eqb k key | _ => false end.

(** How many effects of the log satisfy [f]. *)
Definition count (f : Effect Error Component -> bool)
    (l : list (Effect Error Component)) : nat :=
  length (List.filter f l).

(** *** The click handler of the Convert button (convert.jsx, lines 8-11)

    [this.props.ConvertActions.fetchConversions] is evaluated before the
    arguments: with [ConvertActions] undefined the property read throws;
    then [store.types] throws when [ConvertStore] is undefined; then the
    call throws when [fetchConversions] is not callable. In all three cases
    nothing has been called. *)
Definition Convert_onClick (props : ConvertProps.t) : M Completion :=
  let store := ConvertProps.ConvertStore props in
  match ConvertProps.ConvertActions props with
  | ConvertProps.actions_undefined => mret threw_TypeError
  | callee =>
      match store with
      | None => mret threw_TypeError
      | Some store =>
          match callee with
          | ConvertProps.with_fetchConversions =>
              actions_fetchConversions (ConvertProps.types store)
                                       (ConvertProps.value store) ;;
              mret returned
          | _ => mret threw_TypeError
          end
      end
  end.

(** *** More runs of the fetch-first strategy *)

Definition is_renderToString (e : Effect Error Component) : bool :=
  match e with call_renderToString _ => true | _ => false end.

Definition is_new_Flux (e : Effect Error Component) : bool :=
  match e with call_new_Flux => true | _ => false end.

Definition is_api_fetchConversions (e : Effect Error Component) : bool :=
  match e with call_api_fetchConversions _ _ => true | _ => false end.

(** Requests served one after the other by one handler, each with a
    response of its own; the result lists [res.locals] of each. *)
Fixpoint serve_all
    (handler : Request -> M (option (Settled Conversions Error -> M unit)))
    (rs : list (Request * Settled Conversions Error)) :
    M (list (gmap string string)) :=
  match rs with
  | [] => mret []
  | (req, r) :: rest =>
      l ← serve handler req r;
      ls ← serve_all handler rest;
      mret (l :: ls)
  end.

(** Any number of requests on the handler of one call of the factory. *)
Definition many_requests (C : Component)
    (rs : list (Request * Settled Conversions Error)) :
    M (list (gmap string string)) :=
  handler ← fetch C;
  serve_all handler rs.

(** One request on the handler of a factory call of its own. *)
Definition alone (C : Component) (req : Request)
    (r : Settled Conversions Error) : M (gmap string string) :=
  handler ← fetch C;
  serve handler req r.

(** The pending reaction [k] of a request, run when its promise settles
    with [r]; the result is [res.locals] of that request, which the
    synchronous part of the handler has not written to. *)
Definition react (k : option (Settled Conversions Error -> M unit))
    (r : Settled Conversions Error) : M (gmap string string) :=
  set_locals ∅ ;;
  match k with
  | None => mret tt
  | Some reaction => reaction r
  end ;;
  s ← get;
  mret (locals s).

(** Two requests on one handler whose fetches are in flight at the same
    time: both handlers have returned before either promise settles, and
    the second request's promise settles first. *)
Definition overlapped (C : Component)
    (req1 : Request) (r1 : Settled Conversions Error)
    (req2 : Request) (r2 : Settled Conversions Error) :
    M (gmap string string * gmap string string) :=
  handler ← fetch C;
  k1 ← handler req1;
  k2 ← handler req2;
  locals2 ← react k2 r2;
  locals1 ← react k1 r1;
  mret (locals1, locals2).

(** [res.locals] as the fetch-first handler leaves it for a request served
    on a new store, in closed form. *)
Definition response (C : Component) (req : Request)
    (r : Settled Conversions Error) : gmap string string :=
  if mode_is_noss req then ∅
  else
    match _getQueryBootstrap req, r with
    | Some qb, fulfilled c =>
        let loaded :=
          Flux_bootstrap (JSON_stringify c (types qb) (value qb)) Flux_new in
        <["bootstrapComponent" := ReactDOMServer_renderToString C loaded]>
          (<["bootstrapData" := Flux_takeSnapshot loaded]> ∅)
    | _, _ => ∅
    end.

End Middleware.

(** ** A reference implementation of the collaborators *)

Module Reference.

(** Modelled from the spec: the Flux class of [src/client/flux], with the
    store and the actions it registers, whose source is absent. The spec
    gives the contract (section 6): [bootstrap(serializedState)],
    [takeSnapshot() -> serializedState] and [flush()], which resets the
    store to a clean state. Here the store is its serialized state:
    [bootstrap] loads it, [takeSnapshot] returns it, [flush] goes back to
    the state of a new instance, and a handled action leaves a mark.
    Conversions, errors, component names and markup are strings. The
    component named ["Broken"] throws when it is rendered; any other
    renders. *)
Definition new : string := "{}".

Definition handle (p : Payload string string) (s : string) : string :=
  match p with
  | updateConversions c => s ++ "+conversions=" ++ c
  | conversionError e => s ++ "+error=" ++ e
  | setConversionTypes t => s ++ "+types=" ++ t
  | setConversionValue (Some v) => s ++ "+value=" ++ v
  | setConversionValue None => s ++ "+value"
  end.

Definition render (C : string) (s : string) : string :=
  "<" ++ C ++ ">" ++ s ++ "</" ++ C ++ ">".

Definition stringify (c : string) (t : string) (v : option string) : string :=
  "{ConvertStore:{conversions:" ++ c ++ ",types:" ++ t ++
  match v with Some v => ",value:" ++ v | None => EmptyString end ++ "}}".

Definition render_throws (C : string) (s : string) : option string :=
  if String.eqb C "Broken" then Some "render failed" else None.

Global Instance collaborators : Collaborators string string string string := {|
  Flux_new := new;
  Flux_bootstrap := fun data _ => data;
  Flux_takeSnapshot := fun s => s;
  Flux_flush := fun _ => new;
  Flux_handle := handle;
  ReactDOMServer_renderToString := render;
  ReactDOMServer_renderToString_throws := render_throws;
  JSON_stringify := stringify
|}.

(** The state at the start of a request: a new store, an empty
    [res.locals], nothing logged. *)
Definition start : State string string string :=
  serving new ∅.

(** The component rendered, and the requests used as examples. *)
Definition Page : string := "Page".

Definition Broken : string := "Broken".

Definition currency_bare_noss : Request :=
  request (Some "noss") (Some "currency").

Definition currency_100 : Request := request None (Some "currency:100").

Definition currency_100_noss : Request :=
  request (Some "noss") (Some "currency:100").

Definition currency_bare : Request := request None (Some "currency").

Definition value_only : Request := request None (Some ":100").

Definition a_b_c : Request := request None (Some "a:b:c").

Definition instruction : QueryBootstrap :=
  {| types := "currency"; value := Some "100" |}.

(** The actions strategy on [currency_100]: the state after the success
    payload, and after an error payload that follows it. *)
Definition succeeded : State string string string :=
  exec (actions_run Page currency_100 [updateConversions "[]"]) start.


(** The fetch-first strategy on [currency_100], the fetch rejected. *)
Definition failed : State string string string :=
  exec (fetch_run Page currency_100 (rejected "E")) start.

(** The fetch-first strategy on [currency_100], the fetch fulfilled. *)
Definition fetched : State string string string :=
  exec (fetch_run Page currency_100 (fulfilled "[]")) start.


End Reference.

(** ** Properties of the parser *)

Section Parser.

(** The first segment is the text before the first separator. *)
Lemma split_head sep s : JS.split sep s !! 0%nat = Some (before_first sep s).
Proof.
  induction s as [|c rest IH]; simpl; [reflexivity|].
  destruct (Ascii.eqb c sep); [reflexivity|].
  destruct (JS.split sep rest) as [|seg segs]; simpl in *; [discriminate|].
  congruence.
Qed.

(** Splitting [l ++ sep ++ r] when [sep] does not occur in [l]. *)
Lemma split_app sep l r :
  free_of sep l = true ->
  JS.split sep (l ++ String sep r) = l :: JS.split sep r.
Proof.
  induction l as [|c l IH]; simpl; intros Hl.
  - rewrite Ascii.eqb_refl. reflexivity.
  - apply andb_prop in Hl as [Hc Hl]. apply negb_true_iff in Hc.
    rewrite Hc, (IH Hl). reflexivity.
Qed.

(** A string without the separator is one segment. *)
Lemma split_free sep s : free_of sep s = true -> JS.split sep s = [s].
Proof.
  induction s as [|c s IH]; simpl; intros Hs; [reflexivity|].
  apply andb_prop in Hs as [Hc Hs]. apply negb_true_iff in Hc.
  rewrite Hc, (IH Hs). reflexivity.
Qed.

Lemma before_first_free sep s : free_of sep s = true -> before_first sep s = s.
Proof.
  induction s as [|c s IH]; simpl; intros Hs; [reflexivity|].
  apply andb_prop in Hs as [Hc Hs]. apply negb_true_iff in Hc.
  rewrite Hc, (IH Hs). reflexivity.
Qed.

Lemma before_first_app sep l r :
  free_of sep l = true -> before_first sep (l ++ String sep r) = l.
Proof.
  induction l as [|c l IH]; simpl; intros Hl.
  - rewrite Ascii.eqb_refl. reflexivity.
  - apply andb_prop in Hl as [Hc Hl]. apply negb_true_iff in Hc.
    rewrite Hc, (IH Hl). reflexivity.
Qed.

(** The parser in closed form, for a request that has the key. *)
Lemma parse_spec req b :
  query req !! "__bootstrap" = Some b ->
  _getQueryBootstrap req =
    if JS.not_string (before_first ":" b) then None
    else Some {| types := before_first ":" b;
                 value := JS.split ":" b !! 1%nat |}.
Proof.
  intros Hb. unfold _getQueryBootstrap. rewrite Hb. cbv zeta.
  rewrite split_head.
  destruct b as [|c b]; reflexivity.
Qed.

Lemma parse_missing req :
  query req !! "__bootstrap" = None -> _getQueryBootstrap req = None.
Proof. intros Hb. unfold _getQueryBootstrap. rewrite Hb. reflexivity. Qed.

(** C3, amended. For a [__bootstrap] value [l ++ ":" ++ r] with no colon in
    [l]: [types] is [l], and there is no instruction when [l] is empty;
    [value] is the part of [r] before its next colon, so it is all of [r],
    possibly empty, exactly when [r] holds no further colon. *)
Theorem parse_takes_first_two_segments req l r :
  query req !! "__bootstrap" = Some (l ++ String ":" r) ->
  free_of ":" l = true ->
  _getQueryBootstrap req =
    (if JS.not_string l then None
     else Some {| types := l; value := Some (before_first ":" r) |}) /\
  (free_of ":" r = true -> before_first ":" r = r).
Proof.
  intros Hb Hl. split; [|apply before_first_free].
  rewrite (parse_spec req _ Hb), (before_first_app _ _ _ Hl).
  rewrite (split_app _ _ _ Hl). cbn [lookup list_lookup].
  rewrite <- (split_head ":" r). reflexivity.
Qed.

End Parser.

(** ** Properties of the middleware *)

Section Properties.

Context {Conversions Error Store Component : Type}.
Context `{!Collaborators Conversions Error Store Component}.

Implicit Types (s : State Error Store Component) (req : Request)
  (C : Component) (p : Payload Conversions Error).

(** Runs the monadic code of the goal: the operations of the middleware
    are unfolded, projections and the walk of the dispatcher are computed,
    and the two gates are left as they are. *)
Ltac run_step :=
  cbv beta iota zeta delta
    [fetch_run settle fetch_handler fetch_onFulfilled fetch_onRejected then_catch
     fetch serve two_requests and_then render_if_requested
     actions_run actions on_UPDATE_CONVERSIONS _done call_handler
     actions_setConversionTypes actions_setConversionValue
     actions_fetchConversions dispatch new_Flux new_ActionListeners
     addActionListener removeAllActionListeners flux_bootstrap
     flux_takeSnapshot flux_flush renderToString api_fetchConversions
     assign next emit set_flux set_listeners set_locals get exec
     logged with_flux serving waiting mbind M_bind mret M_ret
     flux listeners tokens locals log token symbol handler
     action ActionId_eqb data_as_err registered fst snd];
  cbn [flux listeners tokens locals log app invoke dispatch_all registered
       existsb Nat.eqb orb andb negb token symbol handler action
       ActionId_eqb data_as_err fst snd].

Ltac run := repeat (progress run_step).

(** *** The gates *)

Lemma fetch_handler_noss C req s :
  mode_is_noss req = true ->
  fetch_handler C req s = (None, logged [call_next None] s).
Proof. intros Hm. unfold fetch_handler. rewrite Hm. reflexivity. Qed.

Lemma fetch_handler_absent C req s :
  _getQueryBootstrap req = None ->
  fetch_handler C req s = (None, logged [call_next None] s).
Proof.
  intros Hq. unfold fetch_handler. rewrite Hq.
  destruct (mode_is_noss req); reflexivity.
Qed.

Lemma actions_noss C req s :
  mode_is_noss req = true ->
  actions C req s = (None, logged [call_next None] s).
Proof. intros Hm. unfold actions. rewrite Hm. reflexivity. Qed.

Lemma actions_absent C req s :
  _getQueryBootstrap req = None ->
  actions C req s = (None, logged [call_next None] s).
Proof.
  intros Hq. unfold actions. rewrite Hq.
  destruct (mode_is_noss req); reflexivity.
Qed.

(** *** Fetch-first: the settlements *)

Lemma fetch_run_rejected C req qb err s :
  mode_is_noss req = false ->
  _getQueryBootstrap req = Some qb ->
  fetch_run C req (rejected err) s =
    (tt, logged [call_api_fetchConversions (types qb) (value qb);
                 call_next (Some err)] s).
Proof.
  intros Hm Hq. run. rewrite Hm, Hq. run.
  rewrite <- app_assoc. reflexivity.
Qed.

(** Fulfilled, and the rendering returns. *)
Lemma fetch_run_fulfilled C req qb conversions s :
  mode_is_noss req = false ->
  _getQueryBootstrap req = Some qb ->
  let data := JSON_stringify conversions (types qb) (value qb) in
  let loaded := Flux_bootstrap data (flux s) in
  ReactDOMServer_renderToString_throws C loaded = None ->
  fetch_run C req (fulfilled conversions) s =
    (tt, {| flux := Flux_flush loaded;
            listeners := listeners s;
            tokens := tokens s;
            locals :=
              <["bootstrapComponent" := ReactDOMServer_renderToString C loaded]>
                (<["bootstrapData" := Flux_takeSnapshot loaded]> (locals s));
            log := log s ++
              [call_api_fetchConversions (types qb) (value qb);
               call_bootstrap data;
               call_takeSnapshot;
               assign_locals "bootstrapData" (Flux_takeSnapshot loaded);
               call_renderToString C;
               assign_locals "bootstrapComponent"
                 (ReactDOMServer_renderToString C loaded);
               call_flush;
               call_next None] |}).
Proof.
  intros Hm Hq data loaded Hr. subst data loaded.
  destruct s as [f ls n l lg]. cbn [flux listeners tokens locals log] in *.
  run. rewrite Hm, Hq. run. rewrite Hr. run.
  rewrite <- !app_assoc. reflexivity.
Qed.

(** Fulfilled, and the rendering throws [err]: the snapshot is assigned,
    the markup is not, [flush] is skipped and [.catch] calls [next(err)]. *)
Lemma fetch_run_fulfilled_throws C req qb conversions err s :
  mode_is_noss req = false ->
  _getQueryBootstrap req = Some qb ->
  let data := JSON_stringify conversions (types qb) (value qb) in
  let loaded := Flux_bootstrap data (flux s) in
  ReactDOMServer_renderToString_throws C loaded = Some err ->
  fetch_run C req (fulfilled conversions) s =
    (tt, {| flux := loaded;
            listeners := listeners s;
            tokens := tokens s;
            locals := <["bootstrapData" := Flux_takeSnapshot loaded]> (locals s);
            log := log s ++
              [call_api_fetchConversions (types qb) (value qb);
               call_bootstrap data;
               call_takeSnapshot;
               assign_locals "bootstrapData" (Flux_takeSnapshot loaded);
               call_renderToString C;
               call_next (Some err)] |}).
Proof.
  intros Hm Hq data loaded Hr. subst data loaded.
  destruct s as [f ls n l lg]. cbn [flux listeners tokens locals log] in *.
  run. rewrite Hm, Hq. run. rewrite Hr. run.
  rewrite <- !app_assoc. reflexivity.
Qed.

(** *** Actions: the synchronous part and the dispatches *)

Lemma actions_open C req qb s :
  mode_is_noss req = false ->
  _getQueryBootstrap req = Some qb ->
  actions C req s =
    (None, {| flux := store_after [setConversionTypes (types qb);
                                   setConversionValue (value qb)] Flux_new;
              listeners := waiting C req;
              tokens := 2;
              locals := locals s;
              log := log s ++
                [call_new_Flux;
                 call_addActionListener UPDATE_CONVERSIONS;
                 call_addActionListener CONVERSION_ERROR;
                 call_setConversionTypes (types qb);
                 call_setConversionValue (value qb);
                 call_fetchConversions (types qb) (value qb)] |}).
Proof.
  intros Hm Hq. run. rewrite Hm, Hq. run.
  rewrite <- !app_assoc. reflexivity.
Qed.

(** With nothing registered a dispatch only reaches the store. *)
Lemma dispatch_unregistered p s :
  listeners s = [] ->
  dispatch p s = (None, with_flux (Flux_handle p (flux s)) s).
Proof.
  destruct s as [f ls n l lg]. cbn [listeners]. intros ->. reflexivity.
Qed.

(** While the request waits, a payload that is neither the success nor the
    error action only reaches the store. *)
Lemma dispatch_waiting_other C req p f n l lg :
  terminal p = false ->
  dispatch p {| flux := f; listeners := waiting C req; tokens := n;
                locals := l; log := lg |} =
    (None, {| flux := Flux_handle p f; listeners := waiting C req;
              tokens := n; locals := l; log := lg |}).
Proof. intros Hp. destruct p; try discriminate; run; reflexivity. Qed.

(** The success payload, and the rendering returns. *)
Lemma dispatch_waiting_update C req conversions f n l lg :
  mode_is_noss req = false ->
  let handled := Flux_handle (updateConversions conversions) f in
  ReactDOMServer_renderToString_throws C handled = None ->
  dispatch (updateConversions conversions)
    {| flux := f; listeners := waiting C req; tokens := n;
       locals := l; log := lg |} =
    (None, {| flux := Flux_flush handled;
              listeners := [];
              tokens := n;
              locals :=
                <["bootstrapComponent" := ReactDOMServer_renderToString C handled]>
                  (<["bootstrapData" := Flux_takeSnapshot handled]> l);
              log := lg ++
                [call_takeSnapshot;
                 assign_locals "bootstrapData" (Flux_takeSnapshot handled);
                 call_renderToString C;
                 assign_locals "bootstrapComponent"
                   (ReactDOMServer_renderToString C handled);
                 call_removeAllActionListeners;
                 call_flush;
                 call_next None] |}).
Proof.
  intros Hm handled Hr. subst handled. run. rewrite Hm. run. rewrite Hr. run.
  rewrite <- !app_assoc. reflexivity.
Qed.

(** The success payload, and the rendering throws [err]: the snapshot is
    assigned, [_done] is not reached, both listeners stay registered and
    the exception leaves the dispatch. *)
Lemma dispatch_waiting_update_throws C req conversions err f n l lg :
  mode_is_noss req = false ->
  let handled := Flux_handle (updateConversions conversions) f in
  ReactDOMServer_renderToString_throws C handled = Some err ->
  dispatch (updateConversions conversions)
    {| flux := f; listeners := waiting C req; tokens := n;
       locals := l; log := lg |} =
    (Some err, {| flux := handled;
                  listeners := waiting C req;
                  tokens := n;
                  locals := <["bootstrapData" := Flux_takeSnapshot handled]> l;
                  log := lg ++
                    [call_takeSnapshot;
                     assign_locals "bootstrapData" (Flux_takeSnapshot handled);
                     call_renderToString C] |}).
Proof.
  intros Hm handled Hr. subst handled. run. rewrite Hm. run. rewrite Hr. run.
  rewrite <- !app_assoc. reflexivity.
Qed.

Lemma dispatch_waiting_error C req err f n l lg :
  dispatch (conversionError err)
    {| flux := f; listeners := waiting C req; tokens := n;
       locals := l; log := lg |} =
    (None, {| flux := Flux_flush (Flux_handle (conversionError err) f);
              listeners := [];
              tokens := n;
              locals := l;
              log := lg ++
                [call_removeAllActionListeners;
                 call_flush;
                 call_next (Some err)] |}).
Proof. run. rewrite <- !app_assoc. reflexivity. Qed.

(** *** Sequences of dispatches *)

Lemma dispatch_all_app (ps qs : list (Payload Conversions Error)) s :
  dispatch_all (ps ++ qs) s = dispatch_all qs (dispatch_all ps s).2.
Proof.
  revert s. induction ps as [|p ps IH]; intros s; [reflexivity|].
  cbn [app dispatch_all]. unfold mbind, M_bind.
  destruct (dispatch p s) as [thrown s1]. apply IH.
Qed.

Lemma store_after_app (ps qs : list (Payload Conversions Error)) (f : Store) :
  store_after (ps ++ qs) f = store_after qs (store_after ps f).
Proof. unfold store_after. apply fold_left_app. Qed.

(** Once the listeners are gone, nothing but the store changes. *)
Lemma dispatch_all_unregistered (ps : list (Payload Conversions Error)) s :
  listeners s = [] ->
  dispatch_all ps s = (tt, with_flux (store_after ps (flux s)) s).
Proof.
  revert s. induction ps as [|p ps IH]; intros s Hl.
  - destruct s; reflexivity.
  - cbn [dispatch_all]. unfold mbind, M_bind.
    rewrite (dispatch_unregistered p s Hl), IH by exact Hl.
    reflexivity.
Qed.

(** Payloads other than the two outcomes leave a waiting request waiting. *)
Lemma dispatch_all_waiting C req (ps : list (Payload Conversions Error)) f n l lg :
  existsb terminal ps = false ->
  dispatch_all ps {| flux := f; listeners := waiting C req; tokens := n;
                     locals := l; log := lg |} =
    (tt, {| flux := store_after ps f; listeners := waiting C req; tokens := n;
            locals := l; log := lg |}).
Proof.
  revert f. induction ps as [|p ps IH]; intros f Hps; [reflexivity|].
  cbn [existsb] in Hps. apply orb_false_elim in Hps as [Hp Hps].
  cbn [dispatch_all]. unfold mbind, M_bind.
  rewrite (dispatch_waiting_other C req p f n l lg Hp), (IH _ Hps).
  reflexivity.
Qed.

(** A sequence of payloads either holds no outcome or splits at its first
    outcome. *)
Lemma first_terminal (ps : list (Payload Conversions Error)) :
  existsb terminal ps = false \/
  exists pre ev post, ps = (pre ++ ev :: post)%list /\
    existsb terminal pre = false /\ terminal ev = true.
Proof.
  induction ps as [|p ps IH]; [left; reflexivity|].
  destruct (terminal p) eqn:Hp.
  - right. exists [], p, ps. auto.
  - destruct IH as [IH|(pre & ev & post & -> & Hpre & Hev)].
    + left. cbn [existsb]. rewrite Hp, IH. reflexivity.
    + right. exists (p :: pre), ev, post. cbn [existsb app].
      rewrite Hp, Hpre. auto.
Qed.

(** *** Actions: whole runs *)

Lemma actions_run_app C req (ps qs : list (Payload Conversions Error)) s :
  actions_run C req (ps ++ qs) s = dispatch_all qs (actions_run C req ps s).2.
Proof.
  unfold actions_run, mbind, M_bind.
  destruct (actions C req s) as [thrown s1]. apply dispatch_all_app.
Qed.

Lemma actions_run_waiting C req qb f l pre :
  mode_is_noss req = false ->
  _getQueryBootstrap req = Some qb ->
  existsb terminal pre = false ->
  actions_run C req pre (serving f l) = (tt, waiting_state C req qb pre l).
Proof.
  intros Hm Hq Hpre. unfold actions_run, mbind, M_bind.
  rewrite (actions_open C req qb _ Hm Hq). cbn [serving locals log app].
  rewrite (dispatch_all_waiting C req pre _ _ _ _ Hpre).
  reflexivity.
Qed.

Lemma actions_run_closed C req f l ps :
  (mode_is_noss req = true \/ _getQueryBootstrap req = None) ->
  actions_run C req ps (serving f l) =
    (tt, {| flux := store_after ps f; listeners := []; tokens := 0;
            locals := l; log := [call_next None] |}).
Proof.
  intros Hgate. unfold actions_run, mbind, M_bind.
  assert (actions C req (serving f l)
          = (None, logged [call_next None] (serving f l))) as ->.
  { destruct Hgate; [apply actions_noss|apply actions_absent]; assumption. }
  rewrite dispatch_all_unregistered by reflexivity. reflexivity.
Qed.

(** The state after the first outcome [ev] of a request that passed the
    gates. *)
Lemma actions_run_outcome C req qb f l pre ev :
  mode_is_noss req = false ->
  _getQueryBootstrap req = Some qb ->
  existsb terminal pre = false ->
  exec (actions_run C req (pre ++ [ev])) (serving f l) =
    exec (dispatch ev) (waiting_state C req qb pre l).
Proof.
  intros Hm Hq Hpre. unfold exec.
  rewrite actions_run_app, (actions_run_waiting C req qb f l pre Hm Hq Hpre).
  cbn [snd dispatch_all]. unfold mbind, M_bind.
  destruct (dispatch ev _) as [thrown s1]. reflexivity.
Qed.

(** The store when the listeners run on the first outcome [ev]. *)
Lemma store_at_outcome (qb : QueryBootstrap)
    (pre : list (Payload Conversions Error)) ev :
  store_after (setConversionTypes (types qb)
               :: setConversionValue (value qb) :: pre ++ [ev]) Flux_new
  = Flux_handle ev
      (store_after (setConversionTypes (types qb)
                    :: setConversionValue (value qb) :: pre) Flux_new).
Proof. rewrite 2!app_comm_cons, store_after_app. reflexivity. Qed.

(** The first outcome, when it reaches [_done]: the state it leaves. *)
Lemma outcome_done C req qb l pre ev :
  mode_is_noss req = false ->
  terminal ev = true ->
  let before := store_after (setConversionTypes (types qb)
                             :: setConversionValue (value qb) :: pre) Flux_new in
  let handled := Flux_handle ev before in
  outcome_throws C ev handled = None ->
  exec (dispatch ev) (waiting_state C req qb pre l) =
    {| flux := Flux_flush handled;
       listeners := [];
       tokens := 2;
       locals :=
         match ev with
         | updateConversions _ =>
             <["bootstrapComponent" := ReactDOMServer_renderToString C handled]>
               (<["bootstrapData" := Flux_takeSnapshot handled]> l)
         | _ => l
         end;
       log := fired qb ++
         match ev with
         | updateConversions _ =>
             [call_takeSnapshot;
              assign_locals "bootstrapData" (Flux_takeSnapshot handled);
              call_renderToString C;
              assign_locals "bootstrapComponent"
                (ReactDOMServer_renderToString C handled)]
         | _ => []
         end ++
         [call_removeAllActionListeners; call_flush;
          call_next (data_as_err ev)] |}.
Proof.
  intros Hm Hev before handled Hr. subst handled before.
  unfold exec, waiting_state.
  destruct ev as [c|e| |]; try discriminate; cbn [outcome_throws] in Hr.
  - rewrite (dispatch_waiting_update C req c _ _ _ _ Hm Hr). reflexivity.
  - rewrite dispatch_waiting_error. reflexivity.
Qed.

(** The first outcome, when the rendering throws: the state it leaves. *)
Lemma outcome_thrown C req qb l pre ev err :
  mode_is_noss req = false ->
  let before := store_after (setConversionTypes (types qb)
                             :: setConversionValue (value qb) :: pre) Flux_new in
  let handled := Flux_handle ev before in
  outcome_throws C ev handled = Some err ->
  exec (dispatch ev) (waiting_state C req qb pre l) =
    {| flux := handled;
       listeners := waiting C req;
       tokens := 2;
       locals := <["bootstrapData" := Flux_takeSnapshot handled]> l;
       log := fired qb ++
         [call_takeSnapshot;
          assign_locals "bootstrapData" (Flux_takeSnapshot handled);
          call_renderToString C] |}.
Proof.
  intros Hm before handled Hr. subst handled before.
  unfold exec, waiting_state.
  destruct ev as [c|e| |]; try discriminate; cbn [outcome_throws] in Hr.
  rewrite (dispatch_waiting_update_throws C req c err _ _ _ _ Hm Hr).
  reflexivity.
Qed.

(** What follows an outcome that reached [_done] only reaches the store. *)
Lemma actions_run_after_outcome C req qb f l pre ev post :
  mode_is_noss req = false ->
  _getQueryBootstrap req = Some qb ->
  existsb terminal pre = false ->
  terminal ev = true ->
  outcome_throws C ev
    (store_after (setConversionTypes (types qb)
                  :: setConversionValue (value qb) :: pre ++ [ev]) Flux_new)
    = None ->
  let s1 := exec (actions_run C req (pre ++ [ev])) (serving f l) in
  exec (actions_run C req (pre ++ ev :: post)) (serving f l) =
    with_flux (store_after post (flux s1)) s1.
Proof.
  intros Hm Hq Hpre Hev Hr s1. rewrite store_at_outcome in Hr.
  assert (Hl : listeners s1 = []).
  { unfold s1. rewrite (actions_run_outcome C req qb f l pre ev Hm Hq Hpre).
    rewrite (outcome_done C req qb l pre ev Hm Hev Hr). reflexivity. }
  replace (pre ++ ev :: post)%list with ((pre ++ [ev]) ++ post)%list
    by (rewrite <- app_assoc; reflexivity).
  unfold exec at 1. rewrite actions_run_app.
  fold (exec (actions_run C req (pre ++ [ev])) (serving f l)). fold s1.
  rewrite (dispatch_all_unregistered post s1 Hl). reflexivity.
Qed.

Lemma count_app (f : Effect Error Component -> bool) (l1 l2 : list _) :
  count f (l1 ++ l2) = count f l1 + count f l2.
Proof. unfold count. rewrite List.filter_app, length_app. reflexivity. Qed.

(** Any payloads on a waiting request: what they add to the log, and what
    they leave of the registrations and of [res.locals]. *)
Lemma waiting_run_summary C req (ps : list (Payload Conversions Error)) f n l lg :
  mode_is_noss req = false ->
  let s' := exec (dispatch_all ps)
              {| flux := f; listeners := waiting C req; tokens := n;
                 locals := l; log := lg |} in
  exists added,
    log s' = (lg ++ added)%list /\
    (listeners s' = waiting C req /\ count is_next added = 0 \/
     listeners s' = [] /\ count is_next added = 1) /\
    count is_removeAllActionListeners added = count is_next added /\
    count is_flush added = count is_next added /\
    count (is_assign "bootstrapData") added = count is_renderToString added /\
    count (is_assign "bootstrapComponent") added
      <= count (is_assign "bootstrapData") added /\
    ((forall st, ReactDOMServer_renderToString_throws C st = None) ->
     count (is_assign "bootstrapComponent") added
       = count (is_assign "bootstrapData") added) /\
    (forall key : string,
       key <> "bootstrapData" -> key <> "bootstrapComponent" ->
       locals s' !! key = l !! key).
Proof.
  intros Hm. revert f l lg.
  induction ps as [|p ps IH]; intros f l lg s'.
  - exists []. subst s'. cbn. rewrite app_nil_r.
    repeat split; auto.
  - subst s'. unfold exec. cbn [dispatch_all]. unfold mbind, M_bind.
    destruct (terminal p) eqn:Hp.
    + destruct p as [c|e| |]; try discriminate.
      * destruct (ReactDOMServer_renderToString_throws C
                    (Flux_handle (updateConversions c) f)) as [err|] eqn:Hr.
        -- rewrite (dispatch_waiting_update_throws C req c err f n l lg Hm Hr).
           destruct (IH (Flux_handle (updateConversions c) f)
                        (<["bootstrapData" := Flux_takeSnapshot
                             (Flux_handle (updateConversions c) f)]> l)
                        (lg ++ [call_takeSnapshot;
                                assign_locals "bootstrapData"
                                  (Flux_takeSnapshot
                                     (Flux_handle (updateConversions c) f));
                                call_renderToString C])%list)
             as (added & Hlog & Hls & Hrm & Hfl & Hd & Hle & Hall & Hfr).
           unfold exec in Hlog, Hls, Hfr.
           eexists (_ :: _ :: _ :: added).
           split; [rewrite Hlog, <- app_assoc; reflexivity|].
           split; [exact Hls|]. split; [exact Hrm|]. split; [exact Hfl|].
           unfold count in *. cbn in *.
           split; [lia|]. split; [lia|].
           split; [intros Hnever; rewrite Hnever in Hr; discriminate|].
           intros key Hk1 Hk2. rewrite (Hfr key Hk1 Hk2).
           apply lookup_insert_ne. congruence.
        -- rewrite (dispatch_waiting_update C req c f n l lg Hm Hr).
           rewrite dispatch_all_unregistered by reflexivity.
           eexists [_; _; _; _; _; _; _].
           split; [reflexivity|]. split; [right; split; reflexivity|].
           split; [reflexivity|]. split; [reflexivity|].
           split; [reflexivity|]. split; [cbn; lia|].
           split; [reflexivity|].
           intros key Hk1 Hk2. cbn [snd with_flux locals].
           rewrite !lookup_insert_ne by congruence. reflexivity.
      * rewrite dispatch_waiting_error.
        rewrite dispatch_all_unregistered by reflexivity.
        eexists [_; _; _].
        split; [reflexivity|]. split; [right; split; reflexivity|].
        split; [reflexivity|]. split; [reflexivity|].
        split; [reflexivity|]. split; [cbn; lia|].
        split; [reflexivity|]. reflexivity.
    + rewrite (dispatch_waiting_other C req p f n l lg Hp).
      apply (IH (Flux_handle p f) l lg).
Qed.

(** The gates, decided. *)
Lemma gates_cases req :
  (mode_is_noss req = true \/ _getQueryBootstrap req = None) \/
  (exists qb, mode_is_noss req = false /\ _getQueryBootstrap req = Some qb).
Proof.
  destruct (mode_is_noss req); [left; left; reflexivity|].
  destruct (_getQueryBootstrap req) as [qb|];
    [right; exists qb; split; reflexivity|left; right; reflexivity].
Qed.

(** *** The claims on the actions strategy *)


(** C7. Actions strategy, request past both gates: by the time the handler
    returns it has registered the listener for [UPDATE_CONVERSIONS], then
    the one for [CONVERSION_ERROR], and then fired [setConversionTypes],
    [setConversionValue] and [fetchConversions], in this order and nothing
    else; the two setters have reached the store, the outcome of the third
    is still to come: both listeners wait and [next] has not been called. *)
Theorem actions_fires_in_order C req qb s :
  mode_is_noss req = false ->
  _getQueryBootstrap req = Some qb ->
  let s' := exec (actions C req) s in
  log s' = (log s ++
    [call_new_Flux;
     call_addActionListener UPDATE_CONVERSIONS;
     call_addActionListener CONVERSION_ERROR;
     call_setConversionTypes (types qb);
     call_setConversionValue (value qb);
     call_fetchConversions (types qb) (value qb)])%list /\
  map symbol (listeners s') = [UPDATE_CONVERSIONS; CONVERSION_ERROR] /\
  flux s' = Flux_handle (setConversionValue (value qb))
              (Flux_handle (setConversionTypes (types qb)) Flux_new) /\
  count is_next (log s') = count is_next (log s).
Proof.
  intros Hm Hq s'. unfold s', exec.
  rewrite (actions_open C req qb s Hm Hq). cbn [snd log listeners flux].
  repeat split. unfold count.
  rewrite List.filter_app, length_app. cbn. lia.
Qed.


(** *** The claims on both strategies *)

(** C2. Fetch-first strategy, request past both gates, fetch rejected with
    [err]: after the call of the API client the only effect is one call
    [next(err)]; nothing is assigned to [res.locals] and the store is as it
    was ([flush] is not called). *)
Theorem fetch_rejected_forwards_error C req qb err s :
  mode_is_noss req = false ->
  _getQueryBootstrap req = Some qb ->
  let s' := exec (fetch_run C req (rejected err)) s in
  log s' = (log s ++ [call_api_fetchConversions (types qb) (value qb);
                      call_next (Some err)])%list /\
  locals s' = locals s /\
  flux s' = flux s.
Proof.
  intros Hm Hq s'. unfold s', exec.
  rewrite (fetch_run_rejected C req qb err s Hm Hq). repeat split.
Qed.

(** C4. A request without the [__bootstrap] key, or whose [__bootstrap]
    value has nothing before its first colon: both handlers finish
    synchronously (the fetch-first handler leaves no reaction pending, the
    actions handler returns without throwing) and their only effect is one
    call [next()]; [res.locals] is untouched. *)
Theorem passthrough_without_instruction C req s :
  (query req !! "__bootstrap" = None \/
   exists b, query req !! "__bootstrap" = Some b /\
             before_first ":" b = EmptyString) ->
  fetch_handler C req s = (None, logged [call_next None] s) /\
  actions C req s = (None, logged [call_next None] s).
Proof.
  intros Hb.
  assert (Hq : _getQueryBootstrap req = None).
  { destruct Hb as [Hb|(b & Hb & Ht)].
    - apply parse_missing, Hb.
    - rewrite (parse_spec req b Hb), Ht. reflexivity. }
  split; [apply fetch_handler_absent|apply actions_absent]; exact Hq.
Qed.

(** C5, amended. A request with a well-formed instruction whose fetch is
    fulfilled, or whose first outcome is [updateConversions]. When [__mode]
    is ["noss"] both handlers pass through and [res.locals] is as it was,
    with neither field assigned. Otherwise both assign the snapshot to
    [bootstrapData]; they assign the markup to [bootstrapComponent] when
    the rendering returns, and leave [bootstrapComponent] as it was when
    the rendering throws. *)
Theorem success_writes_snapshot_and_markup C req qb c f l pre post :
  _getQueryBootstrap req = Some qb ->
  existsb terminal pre = false ->
  let s_fetch := exec (fetch_run C req (fulfilled c)) (serving f l) in
  let s_event :=
    exec (actions_run C req (pre ++ [updateConversions c])) (serving f l) in
  let s_actions :=
    exec (actions_run C req (pre ++ updateConversions c :: post)) (serving f l) in
  if mode_is_noss req then
    locals s_fetch = l /\ log s_fetch = [call_next None] /\
    locals s_actions = l /\ log s_actions = [call_next None]
  else
    let loaded := Flux_bootstrap (JSON_stringify c (types qb) (value qb)) f in
    let handled :=
      store_after (setConversionTypes (types qb)
                   :: setConversionValue (value qb)
                   :: pre ++ [updateConversions c]) Flux_new in
    locals s_fetch !! "bootstrapData" = Some (Flux_takeSnapshot loaded) /\
    locals s_fetch !! "bootstrapComponent" =
      match ReactDOMServer_renderToString_throws C loaded with
      | None => Some (ReactDOMServer_renderToString C loaded)
      | Some _ => l !! "bootstrapComponent"
      end /\
    match ReactDOMServer_renderToString_throws C handled with
    | None =>
        locals s_actions !! "bootstrapData" = Some (Flux_takeSnapshot handled) /\
        locals s_actions !! "bootstrapComponent"
          = Some (ReactDOMServer_renderToString C handled)
    | Some _ =>
        locals s_event !! "bootstrapData" = Some (Flux_takeSnapshot handled) /\
        locals s_event !! "bootstrapComponent" = l !! "bootstrapComponent"
    end.
Proof.
  intros Hq Hpre s_fetch s_event s_actions.
  destruct (mode_is_noss req) eqn:Hm.
  - unfold s_fetch, s_actions, exec, fetch_run, settle, mbind, M_bind.
    rewrite (fetch_handler_noss C req _ Hm).
    rewrite (actions_run_closed C req f l _ (or_introl Hm)).
    repeat split.
  - intros loaded handled.
    assert (Hins1 : forall (a b : string) (m : gmap string string),
              <["bootstrapComponent" := a]> (<["bootstrapData" := b]> m)
                !! "bootstrapData" = Some b).
    { intros a b m. rewrite lookup_insert_ne by discriminate.
      apply lookup_insert_eq. }
    split; [|split].
    + unfold s_fetch, exec.
      destruct (ReactDOMServer_renderToString_throws C loaded) as [err|] eqn:Hr.
      * rewrite (fetch_run_fulfilled_throws C req qb c err (serving f l) Hm Hq Hr).
        apply lookup_insert_eq.
      * rewrite (fetch_run_fulfilled C req qb c (serving f l) Hm Hq Hr). apply Hins1.
    + unfold s_fetch, exec.
      destruct (ReactDOMServer_renderToString_throws C loaded) as [err|] eqn:Hr.
      * rewrite (fetch_run_fulfilled_throws C req qb c err (serving f l) Hm Hq Hr).
        cbn [snd locals serving]. apply lookup_insert_ne. discriminate.
      * rewrite (fetch_run_fulfilled C req qb c (serving f l) Hm Hq Hr).
        apply lookup_insert_eq.
    + assert (He : s_event = exec (dispatch (updateConversions c))
                             (waiting_state C req qb pre l))
        by (apply actions_run_outcome; assumption).
      destruct (ReactDOMServer_renderToString_throws C handled) as [err|] eqn:Hr.
      * unfold handled in Hr. rewrite store_at_outcome in Hr.
        rewrite He, (outcome_thrown C req qb l pre (updateConversions c) err Hm Hr).
        cbn [locals]. unfold handled. rewrite store_at_outcome.
        split; [apply lookup_insert_eq|apply lookup_insert_ne; discriminate].
      * assert (Ha : s_actions = with_flux (store_after post (flux s_event)) s_event)
          by (apply (actions_run_after_outcome C req qb f l pre
                       (updateConversions c) post Hm Hq Hpre eq_refl Hr)).
        unfold handled in Hr. rewrite store_at_outcome in Hr.
        rewrite Ha, He, (outcome_done C req qb l pre (updateConversions c) Hm eq_refl Hr).
        cbn [with_flux locals]. unfold handled. rewrite store_at_outcome.
        split; [apply Hins1|apply lookup_insert_eq].
Qed.



(** C9, amended. A request whose [__bootstrap] value is not empty and holds
    no colon: the parser returns the whole text as [types] and [undefined]
    as [value]; unless [__mode] is ["noss"], the fetch-first handler calls
    the API client, and the actions handler fires its three actions, with
    that [undefined] value, and neither calls [next] at this point. *)
Theorem no_colon_value_undefined C req b s :
  query req !! "__bootstrap" = Some b ->
  b <> EmptyString ->
  free_of ":" b = true ->
  _getQueryBootstrap req = Some {| types := b; value := None |} /\
  (mode_is_noss req = false ->
   (exists reaction,
      fetch_handler C req s =
        (Some reaction, logged [call_api_fetchConversions b None] s)) /\
   log (exec (actions C req) s) =
     (log s ++
      [call_new_Flux;
       call_addActionListener UPDATE_CONVERSIONS;
       call_addActionListener CONVERSION_ERROR;
       call_setConversionTypes b;
       call_setConversionValue None;
       call_fetchConversions b None])%list).
Proof.
  intros Hb Hne Hfree.
  assert (Hq : _getQueryBootstrap req = Some {| types := b; value := None |}).
  { rewrite (parse_spec req b Hb), (before_first_free _ _ Hfree).
    rewrite (split_free _ _ Hfree).
    destruct b; [congruence|reflexivity]. }
  split; [exact Hq|]. intros Hm. split.
  - unfold fetch_handler. rewrite Hm, Hq. eexists. reflexivity.
  - unfold exec. rewrite (actions_open C req _ s Hm Hq). reflexivity.
Qed.

End Properties.
Example split_currency : JS.split ":" "currency:100" = ["currency"; "100"].
Proof. reflexivity. Qed.

Example split_three : JS.split ":" "a:b:c" = ["a"; "b"; "c"].
Proof. reflexivity. Qed.

Example split_trailing : JS.split ":" "a:" = ["a"; EmptyString].
Proof. reflexivity. Qed.

Example parse_currency :
  _getQueryBootstrap (request None (Some "currency:100"))
  = Some {| types := "currency"; value := Some "100" |}.
Proof. vm_compute. reflexivity. Qed.

(** ** The claims at concrete requests *)

Section Concrete.

Import Reference.

Example parse_value_only : _getQueryBootstrap value_only = None.
Proof. vm_compute. reflexivity. Qed.

Example parse_currency_bare :
  _getQueryBootstrap currency_bare = Some {| types := "currency"; value := None |}.
Proof. vm_compute. reflexivity. Qed.

Example fetch_currency_100 :
  locals (exec (fetch_run Page currency_100 (fulfilled "[]")) start)
  = <["bootstrapComponent" :=
        "<Page>{ConvertStore:{conversions:[],types:currency,value:100}}</Page>"]>
      (<["bootstrapData" :=
           "{ConvertStore:{conversions:[],types:currency,value:100}}"]> ∅).
Proof. vm_compute. reflexivity. Qed.

(** C3, counterexample: in ["a:b:c"] the text right of the first colon is
    ["b:c"], but the parser returns ["b"] as [value]. *)
Lemma parse_cuts_value_at_second_colon :
  _getQueryBootstrap a_b_c = Some {| types := "a"; value := Some "b" |} /\
  _getQueryBootstrap a_b_c <> Some {| types := "a"; value := Some "b:c" |}.
Proof. split; [vm_compute; reflexivity|vm_compute; discriminate]. Qed.

(** C5, counterexample: the request [?__mode=noss&__bootstrap=currency:100]
    carries a well-formed instruction and does not ask for server-side
    rendering; with a fetch that would be fulfilled, and with the success
    payload dispatched, neither handler writes a snapshot. *)
Lemma noss_request_gets_no_snapshot :
  _getQueryBootstrap currency_100_noss = Some instruction /\
  mode_is_noss currency_100_noss = true /\
  locals (exec (fetch_run Page currency_100_noss (fulfilled "[]")) start)
    !! "bootstrapData" = None /\
  locals (exec (actions_run Page currency_100_noss [updateConversions "[]"]) start)
    !! "bootstrapData" = None.
Proof. repeat split; vm_compute; reflexivity. Qed.



(** C9, counterexample: the request [?__mode=noss&__bootstrap=currency]
    has a non-empty value without colon, which parses to an instruction
    with an undefined [value]; neither handler proceeds to fetch or to fire
    actions: both only call [next()]. *)
Lemma noss_request_without_colon_passes_through :
  _getQueryBootstrap currency_bare_noss
    = Some {| types := "currency"; value := None |} /\
  fetch_handler Page currency_bare_noss start
    = (None, logged [call_next None] start) /\
  actions Page currency_bare_noss start
    = (None, logged [call_next None] start).
Proof. repeat split; vm_compute; reflexivity. Qed.


Lemma fetch_rejected_forwards_error_witness :
  mode_is_noss currency_100 = false /\
  _getQueryBootstrap currency_100 = Some instruction /\
  log failed = [call_api_fetchConversions "currency" (Some "100");
                call_next (Some "E")] /\
  locals failed = ∅ /\
  flux failed = new.
Proof.
  assert (Hm : mode_is_noss currency_100 = false) by (vm_compute; reflexivity).
  assert (Hq : _getQueryBootstrap currency_100 = Some instruction)
    by (vm_compute; reflexivity).
  split; [exact Hm|]. split; [exact Hq|].
  pose proof (fetch_rejected_forwards_error Page currency_100 instruction
                "E" start Hm Hq) as H.
  vm_compute in H. vm_compute. exact H.
Defined.

Lemma parse_takes_first_two_segments_witness :
  query currency_100 !! "__bootstrap" = Some ("currency" ++ String ":" "100") /\
  free_of ":" "currency" = true /\
  _getQueryBootstrap currency_100 =
    Some {| types := "currency"; value := Some (before_first ":" "100") |} /\
  (free_of ":" "100" = true -> before_first ":" "100" = "100").
Proof.
  assert (Hb : query currency_100 !! "__bootstrap"
               = Some ("currency" ++ String ":" "100"))
    by (vm_compute; reflexivity).
  split; [exact Hb|]. split; [reflexivity|].
  exact (parse_takes_first_two_segments currency_100 "currency" "100"
           Hb eq_refl).
Defined.

Lemma passthrough_without_instruction_witness :
  (query value_only !! "__bootstrap" = Some ":100" /\
   before_first ":" ":100" = EmptyString) /\
  fetch_handler Page value_only start = (None, logged [call_next None] start) /\
  actions Page value_only start = (None, logged [call_next None] start).
Proof.
  assert (Hb : query value_only !! "__bootstrap" = Some ":100")
    by (vm_compute; reflexivity).
  split; [split; [exact Hb|reflexivity]|].
  apply (passthrough_without_instruction Page value_only start).
  right. exists ":100". split; [exact Hb|reflexivity].
Defined.

Lemma success_writes_snapshot_and_markup_witness :
  _getQueryBootstrap currency_100 = Some instruction /\
  locals fetched !! "bootstrapData"
    = Some "{ConvertStore:{conversions:[],types:currency,value:100}}" /\
  locals fetched !! "bootstrapComponent"
    = Some "<Page>{ConvertStore:{conversions:[],types:currency,value:100}}</Page>" /\
  locals succeeded !! "bootstrapData"
    = Some "{}+types=currency+value=100+conversions=[]" /\
  locals succeeded !! "bootstrapComponent"
    = Some "<Page>{}+types=currency+value=100+conversions=[]</Page>".
Proof.
  assert (Hq : _getQueryBootstrap currency_100 = Some instruction)
    by (vm_compute; reflexivity).
  split; [exact Hq|].
  pose proof (success_writes_snapshot_and_markup Page currency_100 instruction
                "[]" new ∅ [] [] Hq eq_refl) as H.
  vm_compute in H. vm_compute. exact H.
Defined.


Lemma actions_fires_in_order_witness :
  mode_is_noss currency_100 = false /\
  _getQueryBootstrap currency_100 = Some instruction /\
  log (exec (actions Page currency_100) start) =
    [call_new_Flux;
     call_addActionListener UPDATE_CONVERSIONS;
     call_addActionListener CONVERSION_ERROR;
     call_setConversionTypes "currency";
     call_setConversionValue (Some "100");
     call_fetchConversions "currency" (Some "100")] /\
  map symbol (listeners (exec (actions Page currency_100) start))
    = [UPDATE_CONVERSIONS; CONVERSION_ERROR] /\
  flux (exec (actions Page currency_100) start)
    = "{}+types=currency+value=100" /\
  count is_next (log (exec (actions Page currency_100) start)) = 0.
Proof.
  assert (Hm : mode_is_noss currency_100 = false) by (vm_compute; reflexivity).
  assert (Hq : _getQueryBootstrap currency_100 = Some instruction)
    by (vm_compute; reflexivity).
  split; [exact Hm|]. split; [exact Hq|].
  pose proof (actions_fires_in_order Page currency_100 instruction start
                Hm Hq) as H.
  vm_compute in H. vm_compute. exact H.
Defined.

Lemma no_colon_value_undefined_witness :
  query currency_bare !! "__bootstrap" = Some "currency" /\
  free_of ":" "currency" = true /\
  _getQueryBootstrap currency_bare
    = Some {| types := "currency"; value := None |} /\
  (mode_is_noss currency_bare = false ->
   (exists reaction,
      fetch_handler Page currency_bare start =
        (Some reaction,
         logged [call_api_fetchConversions "currency" None] start)) /\
   log (exec (actions Page currency_bare) start) =
     [call_new_Flux;
      call_addActionListener UPDATE_CONVERSIONS;
      call_addActionListener CONVERSION_ERROR;
      call_setConversionTypes "currency";
      call_setConversionValue None;
      call_fetchConversions "currency" None]).
Proof.
  assert (Hb : query currency_bare !! "__bootstrap" = Some "currency")
    by (vm_compute; reflexivity).
  split; [exact Hb|]. split; [reflexivity|].
  pose proof (no_colon_value_undefined Page currency_bare "currency" start
                Hb ltac:(discriminate) eq_refl) as H.
  vm_compute in H. vm_compute. exact H.
Defined.



End Concrete.

(** ** Further properties of the parser *)

Section ParserInvariants.

Lemma before_first_is_free sep s : free_of sep (before_first sep s) = true.
Proof.
  induction s as [|c s IH]; simpl; [reflexivity|].
  destruct (Ascii.eqb c sep) eqn:E; simpl; [reflexivity|].
  rewrite E, IH. reflexivity.
Qed.

(** The second segment, when there is one, holds no separator; there is
    none exactly when the string holds no separator. *)
Lemma split_second sep s :
  match JS.split sep s !! 1%nat with
  | Some v => free_of sep v = true /\ free_of sep s = false
  | None => free_of sep s = true
  end.
Proof.
  induction s as [|c s IH]; simpl; [reflexivity|].
  destruct (Ascii.eqb c sep) eqn:E; simpl.
  - rewrite split_head. split; [apply before_first_is_free|reflexivity].
  - destruct (JS.split sep s) as [|seg segs] eqn:Hs; simpl in *; exact IH.
Qed.

Lemma not_string_empty s : JS.not_string s = true <-> s = EmptyString.
Proof. destruct s; simpl; split; congruence. Qed.

(** X1. The parser finds no instruction exactly when the [__bootstrap] key
    is missing or nothing stands before the first colon of its value (the
    empty value included). *)
Theorem parse_absent_iff req :
  _getQueryBootstrap req = None <->
  (query req !! "__bootstrap" = None \/
   exists b, query req !! "__bootstrap" = Some b /\
             before_first ":" b = EmptyString).
Proof.
  destruct (query req !! "__bootstrap") as [b|] eqn:Hb.
  - rewrite (parse_spec req b Hb). split.
    + destruct (JS.not_string (before_first ":" b)) eqn:E; [|discriminate].
      intros _. right. exists b. split; [reflexivity|].
      apply not_string_empty, E.
    + intros [H|(b' & Hb' & Ht)]; [discriminate|].
      injection Hb' as <-. rewrite Ht. reflexivity.
  - rewrite (parse_missing req Hb). split; auto.
Qed.

(** X2. Whatever instruction the parser returns is made of colon-free
    parts: [types] is the non-empty text before the first colon of the
    value of [__bootstrap], [value] holds no colon, and [value] is
    [undefined] exactly when that text holds no colon at all. *)
Theorem parse_result_invariant req qb :
  _getQueryBootstrap req = Some qb ->
  exists b,
    query req !! "__bootstrap" = Some b /\
    types qb = before_first ":" b /\
    types qb <> EmptyString /\
    free_of ":" (types qb) = true /\
    (forall v, value qb = Some v -> free_of ":" v = true) /\
    (value qb = None <-> free_of ":" b = true).
Proof.
  intros Hq.
  destruct (query req !! "__bootstrap") as [b|] eqn:Hb;
    [|rewrite (parse_missing req Hb) in Hq; discriminate].
  rewrite (parse_spec req b Hb) in Hq.
  destruct (JS.not_string (before_first ":" b)) eqn:E; [discriminate|].
  injection Hq as <-. cbn [types value].
  exists b. split; [reflexivity|]. split; [reflexivity|].
  split; [intros H; apply not_string_empty in H; congruence|].
  split; [apply before_first_is_free|].
  pose proof (split_second ":" b) as H2.
  destruct (JS.split ":" b !! 1%nat) as [v|].
  - destruct H2 as [Hv Hb2]. split.
    + intros v' [= <-]. exact Hv.
    + split; [discriminate|congruence].
  - split; [discriminate|]. split; auto.
Qed.

(** X3. Segments after the second colon are ignored: for colon-free [l]
    and [m], the values [l:m:r] and [l:m] give the same instruction. *)
Theorem parse_ignores_later_segments req1 req2 l m r :
  free_of ":" l = true ->
  free_of ":" m = true ->
  query req1 !! "__bootstrap" = Some (l ++ String ":" (m ++ String ":" r)) ->
  query req2 !! "__bootstrap" = Some (l ++ String ":" m) ->
  _getQueryBootstrap req1 = _getQueryBootstrap req2.
Proof.
  intros Hl Hm H1 H2.
  rewrite (parse_spec req1 _ H1), (parse_spec req2 _ H2).
  rewrite !(before_first_app _ _ _ Hl), !(split_app _ _ _ Hl).
  rewrite (split_app _ _ _ Hm), (split_free _ _ Hm). reflexivity.
Qed.

End ParserInvariants.

(** ** Further properties of the middleware *)

Section MiddlewareInvariants.

Context {Conversions Error Store Component : Type}.
Context `{!Collaborators Conversions Error Store Component}.

Implicit Types (s : State Error Store Component) (req : Request)
  (C : Component) (p : Payload Conversions Error)
  (r : Settled Conversions Error).

Lemma fetch_run_closed C req r s :
  (mode_is_noss req = true \/ _getQueryBootstrap req = None) ->
  fetch_run C req r s = (tt, logged [call_next None] s).
Proof.
  intros Hgate. unfold fetch_run, settle, mbind, M_bind.
  assert (fetch_handler C req s = (None, logged [call_next None] s)) as ->;
    [|reflexivity].
  destruct Hgate; [apply fetch_handler_noss|apply fetch_handler_absent];
    assumption.
Qed.

(** X4. A request with [__mode=noss] bypasses both strategies whatever
    else its query holds: each handler only calls [next()]; no fetch is
    started, no Flux instance is built, no listener is registered and
    [res.locals] is not written. *)
Theorem noss_bypasses_everything C req r s :
  mode_is_noss req = true ->
  (fetch_handler C req s).1 = None /\
  fetch_run C req r s = (tt, logged [call_next None] s) /\
  actions C req s = (None, logged [call_next None] s).
Proof.
  intros Hm. rewrite (fetch_handler_noss C req s Hm).
  split; [reflexivity|]. split.
  - apply fetch_run_closed. left. exact Hm.
  - apply actions_noss, Hm.
Qed.

(** X5. Both strategies pass a request through on the same condition:
    the fetch-first handler leaves no reaction pending, and the actions
    handler leaves no listener registered, exactly when [__mode] is
    ["noss"] or the parser finds no instruction. *)
Theorem gates_agree C req s f l :
  ((fetch_handler C req s).1 = None <->
   (mode_is_noss req = true \/ _getQueryBootstrap req = None)) /\
  (listeners (exec (actions C req) (serving f l)) = [] <->
   (mode_is_noss req = true \/ _getQueryBootstrap req = None)).
Proof.
  destruct (gates_cases req) as [Hgate|(qb & Hm & Hq)].
  - assert (Hf : fetch_handler C req s = (None, logged [call_next None] s))
      by (destruct Hgate;
          [apply fetch_handler_noss|apply fetch_handler_absent]; assumption).
    assert (Ha : actions C req (serving f l)
                 = (None, logged [call_next None] (serving f l)))
      by (destruct Hgate; [apply actions_noss|apply actions_absent];
          assumption).
    unfold exec. rewrite Hf, Ha. split; split; auto.
  - unfold exec. rewrite (actions_open C req qb _ Hm Hq).
    unfold fetch_handler. rewrite Hm, Hq. cbn.
    split; split; try discriminate; intros [H1|H1]; congruence.
Qed.

(** X6. Every request through the fetch-first strategy, once its promise
    has settled if it started a fetch, has called [next] exactly once, as
    its last effect. The argument is the error of a rejected fetch, or the
    value the rendering threw after a fulfilled fetch, and nothing
    otherwise. *)
Theorem fetch_calls_next_once C req r s :
  exists earlier,
    log (exec (fetch_run C req r) s) =
      (log s ++ earlier ++
       [call_next
          (if mode_is_noss req then None
           else match _getQueryBootstrap req, r with
                | Some _, rejected err => Some err
                | Some qb, fulfilled c =>
                    ReactDOMServer_renderToString_throws C
                      (Flux_bootstrap
                         (JSON_stringify c (types qb) (value qb)) (flux s))
                | None, _ => None
                end)])%list /\
    count is_next earlier = 0.
Proof.
  unfold exec.
  destruct (gates_cases req) as [Hgate|(qb & Hm & Hq)].
  - rewrite (fetch_run_closed C req r s Hgate). exists [].
    split; [|reflexivity]. cbn [snd logged log app].
    destruct Hgate as [-> | ->]; [reflexivity|].
    destruct (mode_is_noss req); reflexivity.
  - rewrite Hm, Hq. destruct r as [c|err].
    + destruct (ReactDOMServer_renderToString_throws C
                  (Flux_bootstrap (JSON_stringify c (types qb) (value qb))
                                  (flux s))) as [e|] eqn:Hr.
      * rewrite (fetch_run_fulfilled_throws C req qb c e s Hm Hq Hr).
        cbn [snd log]. eexists [_; _; _; _; _]. split; reflexivity.
      * rewrite (fetch_run_fulfilled C req qb c s Hm Hq Hr). cbn [snd log].
        eexists [_; _; _; _; _; _; _]. split; reflexivity.
    + rewrite (fetch_run_rejected C req qb err s Hm Hq). cbn [snd logged log].
      eexists [_]. split; reflexivity.
Qed.

(** X7. A request through the actions strategy tears down and calls [next]
    at most once, whatever is dispatched afterwards and how often, also
    when the rendering throws and the success payload is dispatched again:
    [next] has been called exactly when no listener is registered any
    more; it is called once when the request is passed through, and not at
    all while no outcome has been dispatched. *)
Theorem actions_calls_next_at_most_once C req ps f l :
  count is_next (log (exec (actions_run C req ps) (serving f l))) <= 1 /\
  count is_removeAllActionListeners
    (log (exec (actions_run C req ps) (serving f l))) <= 1 /\
  (count is_next (log (exec (actions_run C req ps) (serving f l))) = 1 <->
   listeners (exec (actions_run C req ps) (serving f l)) = []) /\
  (if mode_is_noss req then
     count is_next (log (exec (actions_run C req ps) (serving f l))) = 1
   else match _getQueryBootstrap req with
        | None =>
            count is_next (log (exec (actions_run C req ps) (serving f l))) = 1
        | Some _ =>
            existsb terminal ps = false ->
            count is_next (log (exec (actions_run C req ps) (serving f l))) = 0
        end).
Proof.
  destruct (gates_cases req) as [Hgate|(qb & Hm & Hq)].
  - unfold exec. rewrite (actions_run_closed C req f l ps Hgate).
    cbn [snd log listeners].
    split; [cbn; lia|]. split; [cbn; lia|]. split; [split; reflexivity|].
    destruct Hgate as [-> | ->]; [reflexivity|].
    destruct (mode_is_noss req); reflexivity.
  - rewrite Hm, Hq.
    assert (Hrun : exec (actions_run C req ps) (serving f l)
                   = exec (dispatch_all ps)
                       {| flux := store_after [setConversionTypes (types qb);
                                               setConversionValue (value qb)]
                                    Flux_new;
                          listeners := waiting C req; tokens := 2;
                          locals := l; log := fired qb |}).
    { unfold exec, actions_run, mbind, M_bind.
      rewrite (actions_open C req qb _ Hm Hq). reflexivity. }
    rewrite Hrun.
    destruct (waiting_run_summary C req ps
                (store_after [setConversionTypes (types qb);
                              setConversionValue (value qb)] Flux_new)
                2 l (fired qb) Hm)
      as (added & Hlog & Hls & Hrm & _).
    rewrite Hlog, !count_app.
    change (count is_next (fired qb)) with 0.
    change (count is_removeAllActionListeners (fired qb)) with 0.
    cbn [Nat.add]. rewrite Hrm.
    destruct Hls as [[Hl Hn]|[Hl Hn]]; rewrite Hl, Hn.
    + split; [lia|]. split; [lia|]. split; [split; discriminate|].
      intros _. reflexivity.
    + split; [lia|]. split; [lia|]. split; [split; reflexivity|].
      intros Hps. rewrite <- Hrun in Hl. unfold exec in Hl.
      rewrite (actions_run_waiting C req qb f l ps Hm Hq Hps) in Hl.
      discriminate.
Qed.

(** X8. A request past both gates of the actions strategy for which no
    outcome is ever dispatched stays pending: both listeners remain
    registered, [next] is never called and [res.locals] is not written,
    however many other payloads are dispatched. *)
Theorem actions_pending_without_outcome C req qb ps f l :
  mode_is_noss req = false ->
  _getQueryBootstrap req = Some qb ->
  existsb terminal ps = false ->
  let s := exec (actions_run C req ps) (serving f l) in
  listeners s = waiting C req /\
  count is_next (log s) = 0 /\
  locals s = l /\
  flux s = store_after (setConversionTypes (types qb)
                        :: setConversionValue (value qb) :: ps) Flux_new.
Proof.
  intros Hm Hq Hps s. unfold s, exec.
  rewrite (actions_run_waiting C req qb f l ps Hm Hq Hps).
  repeat split.
Qed.

(** X9. Error path of the actions strategy: when the first outcome of a
    request past both gates is [conversionError err], nothing is assigned
    to [res.locals]; the handlers' effects after the actions were fired are
    [removeAllActionListeners], [flush] and [next(err)], and later payloads
    add nothing. *)
Theorem actions_error_forwards_error C req qb pre err post f l :
  mode_is_noss req = false ->
  _getQueryBootstrap req = Some qb ->
  existsb terminal pre = false ->
  let s := exec (actions_run C req (pre ++ conversionError err :: post))
                (serving f l) in
  locals s = l /\
  log s = (fired qb ++ [call_removeAllActionListeners; call_flush;
                        call_next (Some err)])%list /\
  listeners s = [].
Proof.
  intros Hm Hq Hpre s. unfold s.
  rewrite (actions_run_after_outcome C req qb f l pre (conversionError err)
             post Hm Hq Hpre eq_refl eq_refl).
  cbn [with_flux locals log listeners].
  rewrite (actions_run_outcome C req qb f l pre _ Hm Hq Hpre).
  unfold exec, waiting_state. rewrite dispatch_waiting_error.
  repeat split.
Qed.

(** X10. Neither strategy touches any other key of [res.locals]: over any
    run, a key other than [bootstrapData] and [bootstrapComponent] reads as
    before. *)
Theorem locals_frame C req r ps s f l (key : string) :
  key <> "bootstrapData" ->
  key <> "bootstrapComponent" ->
  locals (exec (fetch_run C req r) s) !! key = locals s !! key /\
  locals (exec (actions_run C req ps) (serving f l)) !! key = l !! key.
Proof.
  intros Hd Hc.
  assert (Hins : forall (a b : string) (m : gmap string string),
            <["bootstrapComponent" := a]> (<["bootstrapData" := b]> m) !! key
            = m !! key).
  { intros a b m. rewrite !lookup_insert_ne by congruence. reflexivity. }
  unfold exec.
  destruct (gates_cases req) as [Hgate|(qb & Hm & Hq)].
  - rewrite (fetch_run_closed C req r s Hgate).
    rewrite (actions_run_closed C req f l ps Hgate). split; reflexivity.
  - split.
    + destruct r as [c|err].
      * destruct (ReactDOMServer_renderToString_throws C
                    (Flux_bootstrap (JSON_stringify c (types qb) (value qb))
                                    (flux s))) as [e|] eqn:Hr.
        -- rewrite (fetch_run_fulfilled_throws C req qb c e s Hm Hq Hr).
           cbn [snd locals]. apply lookup_insert_ne. congruence.
        -- rewrite (fetch_run_fulfilled C req qb c s Hm Hq Hr). apply Hins.
      * rewrite (fetch_run_rejected C req qb err s Hm Hq). reflexivity.
    + unfold actions_run, mbind, M_bind.
      rewrite (actions_open C req qb _ Hm Hq). cbn [serving locals log app].
      destruct (waiting_run_summary C req ps
                  (store_after [setConversionTypes (types qb);
                                setConversionValue (value qb)] Flux_new)
                  2 l (fired qb) Hm)
        as (added & _ & _ & _ & _ & _ & _ & _ & Hfr).
      apply (Hfr key Hd Hc).
Qed.

(** X11. The actions strategy does not depend on the store it finds: the
    effects, [res.locals] and the registrations of a run are the same
    whatever store was there before the request. *)
Theorem actions_ignores_previous_store C req ps f1 f2 l :
  log (exec (actions_run C req ps) (serving f1 l)) =
  log (exec (actions_run C req ps) (serving f2 l)) /\
  locals (exec (actions_run C req ps) (serving f1 l)) =
  locals (exec (actions_run C req ps) (serving f2 l)) /\
  listeners (exec (actions_run C req ps) (serving f1 l)) =
  listeners (exec (actions_run C req ps) (serving f2 l)).
Proof.
  destruct (gates_cases req) as [Hgate|(qb & Hm & Hq)].
  - unfold exec. rewrite !(actions_run_closed C req _ l ps Hgate).
    repeat split.
  - unfold exec, actions_run, mbind, M_bind.
    rewrite !(actions_open C req qb _ Hm Hq). repeat split.
Qed.

(** The store after a run of the fetch-first strategy. *)
Lemma fetch_run_flux C req r s :
  flux (exec (fetch_run C req r) s) =
    if mode_is_noss req then flux s
    else match _getQueryBootstrap req, r with
         | Some qb, fulfilled c =>
             let loaded :=
               Flux_bootstrap (JSON_stringify c (types qb) (value qb)) (flux s) in
             match ReactDOMServer_renderToString_throws C loaded with
             | None => Flux_flush loaded
             | Some _ => loaded
             end
         | _, _ => flux s
         end.
Proof.
  unfold exec.
  destruct (gates_cases req) as [Hgate|(qb & Hm & Hq)].
  - rewrite (fetch_run_closed C req r s Hgate).
    destruct Hgate as [-> | ->]; [reflexivity|].
    destruct (mode_is_noss req); reflexivity.
  - rewrite Hm, Hq. destruct r as [c|err].
    + cbv zeta.
      destruct (ReactDOMServer_renderToString_throws C
                  (Flux_bootstrap (JSON_stringify c (types qb) (value qb))
                                  (flux s))) as [e|] eqn:Hr.
      * rewrite (fetch_run_fulfilled_throws C req qb c e s Hm Hq Hr).
        reflexivity.
      * rewrite (fetch_run_fulfilled C req qb c s Hm Hq Hr). reflexivity.
    + rewrite (fetch_run_rejected C req qb err s Hm Hq). reflexivity.
Qed.

(** X12. The shared store of the fetch-first strategy is touched only by
    the reaction to a fulfilled fetch: the synchronous part of the handler
    leaves the store and [res.locals] as they are, and so does a whole run
    that is passed through or whose fetch is rejected. A fulfilled run
    leaves the store bootstrapped and then flushed when the rendering
    returns, and bootstrapped but not flushed when the rendering throws. *)
Theorem fetch_store_touched_on_success_only C req r s :
  flux (fetch_handler C req s).2 = flux s /\
  locals (fetch_handler C req s).2 = locals s /\
  flux (exec (fetch_run C req r) s) =
    if mode_is_noss req then flux s
    else match _getQueryBootstrap req, r with
         | Some qb, fulfilled c =>
             let loaded :=
               Flux_bootstrap (JSON_stringify c (types qb) (value qb)) (flux s) in
             match ReactDOMServer_renderToString_throws C loaded with
             | None => Flux_flush loaded
             | Some _ => loaded
             end
         | _, _ => flux s
         end.
Proof.
  split; [|split; [|apply fetch_run_flux]];
    unfold fetch_handler;
    destruct (mode_is_noss req); try reflexivity;
    destruct (_getQueryBootstrap req); reflexivity.
Qed.

(** X13. Flux instances: a run of the fetch-first handler never builds
    one (the factory builds the only one), while the actions handler builds
    exactly one for each request past both gates and none for a request it
    passes through. *)
Theorem flux_instances C req r s :
  count is_new_Flux (log (exec (fetch C) s))
    = count is_new_Flux (log s) + 1 /\
  count is_new_Flux (log (exec (fetch_run C req r) s))
    = count is_new_Flux (log s) /\
  count is_new_Flux (log (exec (actions C req) s))
    = count is_new_Flux (log s) +
      (if mode_is_noss req then 0
       else match _getQueryBootstrap req with Some _ => 1 | None => 0 end).
Proof.
  split; [|split].
  - unfold exec, fetch, new_Flux, mbind, M_bind, emit, set_flux,
      set_listeners, mret, M_ret.
    cbn [snd log]. rewrite count_app. reflexivity.
  - unfold exec.
    destruct (gates_cases req) as [Hgate|(qb & Hm & Hq)].
    + rewrite (fetch_run_closed C req r s Hgate). cbn [snd logged log].
      rewrite count_app. cbn. lia.
    + destruct r as [c|err].
      * destruct (ReactDOMServer_renderToString_throws C
                    (Flux_bootstrap (JSON_stringify c (types qb) (value qb))
                                    (flux s))) as [e|] eqn:Hr.
        -- rewrite (fetch_run_fulfilled_throws C req qb c e s Hm Hq Hr).
           cbn [snd log]. rewrite count_app. cbn. lia.
        -- rewrite (fetch_run_fulfilled C req qb c s Hm Hq Hr). cbn [snd log].
           rewrite count_app. cbn. lia.
      * rewrite (fetch_run_rejected C req qb err s Hm Hq).
        cbn [snd logged log]. rewrite count_app. cbn. lia.
  - unfold exec.
    destruct (gates_cases req) as [Hgate|(qb & Hm & Hq)].
    + assert (actions C req s = (None, logged [call_next None] s)) as ->
        by (destruct Hgate; [apply actions_noss|apply actions_absent];
            assumption).
      cbn [snd logged log]. rewrite count_app.
      destruct Hgate as [-> | ->]; [reflexivity|].
      destruct (mode_is_noss req); reflexivity.
    + rewrite (actions_open C req qb s Hm Hq), Hm, Hq. cbn [snd log].
      rewrite count_app. reflexivity.
Qed.

(** *** Fetch-first: many requests on one store *)

Section CleanStore.

Hypothesis flush_resets :
  forall data, Flux_flush (Flux_bootstrap data Flux_new) = Flux_new.

(** The reaction to a fulfilled fetch, in closed form. *)
Lemma onFulfilled_spec C req t v c s :
  mode_is_noss req = false ->
  let loaded := Flux_bootstrap (JSON_stringify c t v) (flux s) in
  ReactDOMServer_renderToString_throws C loaded = None ->
  fetch_onFulfilled C req t v c s =
    (None, {| flux := Flux_flush loaded;
            listeners := listeners s;
            tokens := tokens s;
            locals :=
              <["bootstrapComponent" := ReactDOMServer_renderToString C loaded]>
                (<["bootstrapData" := Flux_takeSnapshot loaded]> (locals s));
            log := log s ++
              [call_bootstrap (JSON_stringify c t v);
               call_takeSnapshot;
               assign_locals "bootstrapData" (Flux_takeSnapshot loaded);
               call_renderToString C;
               assign_locals "bootstrapComponent"
                 (ReactDOMServer_renderToString C loaded);
               call_flush;
               call_next None] |}).
Proof.
  intros Hm loaded Hr. subst loaded. destruct s as [f ls n l lg].
  cbn [flux listeners tokens locals log] in *.
  unfold fetch_onFulfilled, render_if_requested. rewrite Hm.
  cbv beta iota zeta delta
    [flux_bootstrap flux_takeSnapshot flux_flush renderToString assign next
     emit set_flux set_locals get mbind M_bind mret M_ret negb and_then
     flux listeners tokens locals log fst snd].
  rewrite Hr.
  cbv beta iota zeta delta
    [flux_bootstrap flux_takeSnapshot flux_flush renderToString assign next
     emit set_flux set_locals get mbind M_bind mret M_ret negb and_then
     flux listeners tokens locals log fst snd].
  rewrite <- !app_assoc. reflexivity.
Qed.

(** A reaction run on a clean store gives the closed-form response and
    leaves the store clean. *)
Lemma react_clean C req s1 r s :
  (forall data,
     ReactDOMServer_renderToString_throws C (Flux_bootstrap data Flux_new)
     = None) ->
  flux s = Flux_new ->
  (react (fetch_handler C req s1).1 r s).1 = response C req r /\
  flux (react (fetch_handler C req s1).1 r s).2 = Flux_new.
Proof.
  intros Hrender Hs. unfold response, fetch_handler.
  destruct (mode_is_noss req) eqn:Hm; [split; [reflexivity|exact Hs]|].
  destruct (_getQueryBootstrap req) as [qb|] eqn:Hq;
    [|split; [reflexivity|exact Hs]].
  destruct r as [c|err]; [|split; [reflexivity|exact Hs]].
  unfold react, mbind, M_bind, mret, M_ret, api_fetchConversions, emit,
    set_locals, get, then_catch, mbind, M_bind, mret, M_ret.
  cbn [fst snd].
  match goal with
  | |- context [fetch_onFulfilled C req ?t ?v c ?s0] =>
      assert (Hr : ReactDOMServer_renderToString_throws C
                     (Flux_bootstrap (JSON_stringify c t v) (flux s0)) = None)
        by (cbn [flux]; rewrite Hs; apply Hrender);
      rewrite (onFulfilled_spec C req t v c s0 Hm Hr)
  end.
  cbn [fst snd flux locals]. rewrite Hs, flush_resets. split; reflexivity.
Qed.

Lemma handler_keeps_flux C req s :
  flux (fetch_handler C req s).2 = flux s.
Proof.
  unfold fetch_handler.
  destruct (mode_is_noss req); [reflexivity|].
  destruct (_getQueryBootstrap req); reflexivity.
Qed.

(** The reaction a handler returns does not depend on the state. *)
Lemma handler_reaction_fixed C req s1 s2 :
  (fetch_handler C req s1).1 = (fetch_handler C req s2).1.
Proof.
  unfold fetch_handler.
  destruct (mode_is_noss req); [reflexivity|].
  destruct (_getQueryBootstrap req); reflexivity.
Qed.

Lemma serve_as_react C req r s :
  serve (fetch_handler C) req r s =
    react (fetch_handler C req s).1 r
      (fetch_handler C req (set_locals ∅ s).2).2.
Proof.
  unfold serve, react, settle, mbind, M_bind, set_locals, get, mret, M_ret.
  cbn [snd].
  rewrite (handler_reaction_fixed C req s
             {| flux := flux s; listeners := listeners s; tokens := tokens s;
                locals := ∅; log := log s |}).
  destruct (fetch_handler C req _) as [[k|] s1] eqn:E; cbn [fst snd].
  - assert (Hl : locals s1 = ∅).
    { pose proof (f_equal snd E) as E2. cbn [snd] in E2. rewrite <- E2.
      unfold fetch_handler.
      destruct (mode_is_noss req); [reflexivity|].
      destruct (_getQueryBootstrap req); reflexivity. }
    destruct s1 as [f1 ls1 n1 l1 lg1]. cbn [locals] in Hl. subst l1.
    reflexivity.
  - assert (Hl : locals s1 = ∅).
    { pose proof (f_equal snd E) as E2. cbn [snd] in E2. rewrite <- E2.
      unfold fetch_handler.
      destruct (mode_is_noss req); [reflexivity|].
      destruct (_getQueryBootstrap req); reflexivity. }
    destruct s1 as [f1 ls1 n1 l1 lg1]. cbn [locals] in Hl. subst l1.
    reflexivity.
Qed.

Lemma serve_clean C req r s :
  (forall data,
     ReactDOMServer_renderToString_throws C (Flux_bootstrap data Flux_new)
     = None) ->
  flux s = Flux_new ->
  (serve (fetch_handler C) req r s).1 = response C req r /\
  flux (serve (fetch_handler C) req r s).2 = Flux_new.
Proof.
  intros Hrender Hs. rewrite serve_as_react.
  apply react_clean; [exact Hrender|].
  rewrite handler_keeps_flux. exact Hs.
Qed.

Lemma serve_all_clean C rs s :
  (forall data,
     ReactDOMServer_renderToString_throws C (Flux_bootstrap data Flux_new)
     = None) ->
  flux s = Flux_new ->
  (serve_all (fetch_handler C) rs s).1
    = map (fun x => response C x.1 x.2) rs /\
  flux (serve_all (fetch_handler C) rs s).2 = Flux_new.
Proof.
  intros Hrender. revert s. induction rs as [|[req r] rs IH]; intros s Hs.
  - split; [reflexivity|exact Hs].
  - cbn [serve_all map]. unfold mbind, M_bind.
    destruct (serve_clean C req r s Hrender Hs) as [H1 H2].
    destruct (serve (fetch_handler C) req r s) as [l1 s1].
    cbn [fst snd] in H1, H2.
    destruct (IH s1 H2) as [H3 H4].
    destruct (serve_all (fetch_handler C) rs s1) as [ls s2].
    cbn [fst snd] in *. subst. unfold mret, M_ret. cbn [fst snd].
    split; [reflexivity|exact H4].
Qed.

Lemma alone_response C req r s0 :
  (forall data,
     ReactDOMServer_renderToString_throws C (Flux_bootstrap data Flux_new)
     = None) ->
  (alone C req r s0).1 = response C req r.
Proof.
  intros Hrender.
  unfold alone, fetch, mbind, M_bind, new_Flux, mbind, M_bind, emit,
    set_flux, set_listeners, mret, M_ret.
  apply serve_clean; [exact Hrender|reflexivity].
Qed.

(** X14. Fetch-first strategy, under the contract that [flush] brings a
    store bootstrapped from new back to the state of a new store, and for a
    component whose rendering on a store bootstrapped from new returns:
    however many requests one handler serves one after the other, with
    whatever instructions and outcomes (passed through, fetch fulfilled or
    rejected), each gets the [res.locals] it would get alone on a handler
    of its own, and the shared store ends in the state of a new store. *)
Theorem fetch_requests_independent C rs s0 :
  (forall data,
     ReactDOMServer_renderToString_throws C (Flux_bootstrap data Flux_new)
     = None) ->
  (many_requests C rs s0).1 = map (fun x => (alone C x.1 x.2 s0).1) rs /\
  flux (many_requests C rs s0).2 = Flux_new.
Proof.
  intros Hrender.
  assert (Hmap : map (fun x => (alone C x.1 x.2 s0).1) rs
                 = map (fun x => response C x.1 x.2) rs).
  { apply map_ext. intros [req r]. apply alone_response, Hrender. }
  rewrite Hmap.
  unfold many_requests, fetch, mbind, M_bind, new_Flux, mbind, M_bind, emit,
    set_flux, set_listeners, mret, M_ret.
  apply serve_all_clean; [exact Hrender|reflexivity].
Qed.

(** X15. Under the same contract and for such a component, two requests
    whose fetches overlap (both handlers have returned before either
    promise settles, and the second settles first) get the same
    [res.locals] as when they are served one after the other, and the store
    ends clean: the reaction to a settlement runs from bootstrap to flush
    without giving up control. *)
Theorem fetch_overlap_harmless C req1 r1 req2 r2 s0 :
  (forall data,
     ReactDOMServer_renderToString_throws C (Flux_bootstrap data Flux_new)
     = None) ->
  (overlapped C req1 r1 req2 r2 s0).1 = (two_requests C req1 r1 req2 r2 s0).1 /\
  flux (overlapped C req1 r1 req2 r2 s0).2 = Flux_new.
Proof.
  intros Hrender.
  assert (Hseq : (two_requests C req1 r1 req2 r2 s0).1
                 = (response C req1 r1, response C req2 r2)).
  { unfold two_requests, fetch, mbind, M_bind, new_Flux, mbind, M_bind, emit,
      set_flux, set_listeners, mret, M_ret.
    match goal with
    | |- context [serve (fetch_handler C) req1 r1 ?s] =>
        destruct (serve_clean C req1 r1 s Hrender eq_refl) as [H1 H2];
        destruct (serve (fetch_handler C) req1 r1 s) as [l1 s1]
    end.
    cbn [fst snd] in H1, H2.
    destruct (serve_clean C req2 r2 s1 Hrender H2) as [H3 H4].
    destruct (serve (fetch_handler C) req2 r2 s1) as [l2 s2].
    cbn [fst snd] in *. subst. reflexivity. }
  rewrite Hseq.
  unfold overlapped, fetch, mbind, M_bind, new_Flux, mbind, M_bind, emit,
    set_flux, set_listeners, mret, M_ret.
  match goal with
  | |- context [fetch_handler C req1 ?s] =>
      pose proof (handler_keeps_flux C req1 s) as Hk1;
      pose proof (fun r s' => react_clean C req1 s r s' Hrender) as Hr1;
      destruct (fetch_handler C req1 s) as [k1 s1]
  end.
  cbn [fst snd flux] in Hk1, Hr1.
  pose proof (handler_keeps_flux C req2 s1) as Hk2.
  pose proof (fun r s' => react_clean C req2 s1 r s' Hrender) as Hr2.
  destruct (fetch_handler C req2 s1) as [k2 s2].
  cbn [fst snd] in Hk2, Hr2.
  assert (Hs2 : flux s2 = Flux_new) by congruence.
  destruct (Hr2 r2 s2 Hs2) as [H2 H2'].
  destruct (react k2 r2 s2) as [l2 s3]. cbn [fst snd] in H2, H2'.
  destruct (Hr1 r1 s3 H2') as [H1 H1'].
  destruct (react k1 r1 s3) as [l1 s4]. cbn [fst snd] in *.
  subst. split; [reflexivity|exact H1'].
Qed.

End CleanStore.

(** *** The Convert button *)

(** X16. The click handler of the Convert button returns exactly when
    [ConvertActions] is an object with a callable [fetchConversions] and
    [ConvertStore] is present: then it has fired [fetchConversions] once,
    with the [types] and the [value] of the store as they are ([value]
    possibly [undefined]), and done nothing else. In every other case
    ([ConvertActions] undefined or without a callable [fetchConversions],
    or [ConvertStore] undefined) it throws a [TypeError] and nothing has
    been fired or changed. *)
Theorem Convert_onClick_outcomes (props : ConvertProps.t) s :
  ((Convert_onClick props s).1 = returned <->
   (ConvertProps.ConvertActions props = ConvertProps.with_fetchConversions /\
    ConvertProps.ConvertStore props <> None)) /\
  (Convert_onClick props s).2 =
    match ConvertProps.ConvertActions props, ConvertProps.ConvertStore props with
    | ConvertProps.with_fetchConversions, Some store =>
        logged [call_fetchConversions (ConvertProps.types store)
                                      (ConvertProps.value store)] s
    | _, _ => s
    end.
Proof.
  unfold Convert_onClick.
  destruct (ConvertProps.ConvertActions props);
    destruct (ConvertProps.ConvertStore props) as [store|]; cbn;
    (split;
       [split;
          [intros H0; first [discriminate H0|split; [reflexivity|discriminate]]
          |intros [H1 H2];
           first [reflexivity|discriminate H1|exfalso; apply H2; reflexivity]]
       |reflexivity]).
Qed.

(** X17. Server and client fire the same fetch: for a request past both
    gates, the last effect of the actions handler is the call of
    [fetchConversions] that a click on a Convert button makes whose store
    holds the [types] and the [value] of the request's instruction. *)
Theorem click_fires_what_the_server_fired C req qb s s' :
  mode_is_noss req = false ->
  _getQueryBootstrap req = Some qb ->
  let props :=
    {| ConvertProps.ConvertActions := ConvertProps.with_fetchConversions;
       ConvertProps.ConvertStore :=
         Some {| ConvertProps.types := types qb;
                 ConvertProps.value := value qb |} |} in
  exists e,
    last (log (exec (actions C req) s)) = Some e /\
    log (exec (Convert_onClick props) s') = (log s' ++ [e])%list /\
    (Convert_onClick props s').1 = returned.
Proof.
  intros Hm Hq props. unfold exec.
  rewrite (actions_open C req qb s Hm Hq). cbn [snd log].
  exists (call_fetchConversions (types qb) (value qb)).
  split; [|split; reflexivity].
  rewrite last_app. reflexivity.
Qed.

End MiddlewareInvariants.

(** ** The further properties at concrete requests *)

Section ConcreteInvariants.

Import Reference.

Lemma parse_result_invariant_witness :
  _getQueryBootstrap currency_100 = Some instruction /\
  exists b,
    query currency_100 !! "__bootstrap" = Some b /\
    types instruction = before_first ":" b /\
    types instruction <> EmptyString /\
    free_of ":" (types instruction) = true /\
    (forall v, value instruction = Some v -> free_of ":" v = true) /\
    (value instruction = None <-> free_of ":" b = true).
Proof.
  assert (Hq : _getQueryBootstrap currency_100 = Some instruction)
    by (vm_compute; reflexivity).
  split; [exact Hq|].
  exact (parse_result_invariant currency_100 instruction Hq).
Defined.

Lemma parse_ignores_later_segments_witness :
  free_of ":" "a" = true /\
  free_of ":" "b" = true /\
  query a_b_c !! "__bootstrap" = Some ("a" ++ String ":" ("b" ++ String ":" "c")) /\
  query (request None (Some "a:b")) !! "__bootstrap"
    = Some ("a" ++ String ":" "b") /\
  _getQueryBootstrap a_b_c = _getQueryBootstrap (request None (Some "a:b")).
Proof.
  assert (H1 : query a_b_c !! "__bootstrap"
               = Some ("a" ++ String ":" ("b" ++ String ":" "c")))
    by (vm_compute; reflexivity).
  assert (H2 : query (request None (Some "a:b")) !! "__bootstrap"
               = Some ("a" ++ String ":" "b"))
    by (vm_compute; reflexivity).
  split; [reflexivity|]. split; [reflexivity|].
  split; [exact H1|]. split; [exact H2|].
  exact (parse_ignores_later_segments a_b_c (request None (Some "a:b"))
           "a" "b" "c" eq_refl eq_refl H1 H2).
Defined.

Lemma noss_bypasses_everything_witness :
  mode_is_noss currency_100_noss = true /\
  (fetch_handler Page currency_100_noss start).1 = None /\
  fetch_run Page currency_100_noss (fulfilled "[]") start
    = (tt, logged [call_next None] start) /\
  actions Page currency_100_noss start = (None, logged [call_next None] start).
Proof.
  assert (Hm : mode_is_noss currency_100_noss = true)
    by (vm_compute; reflexivity).
  split; [exact Hm|].
  exact (noss_bypasses_everything Page currency_100_noss (fulfilled "[]")
           start Hm).
Defined.

Lemma actions_pending_without_outcome_witness :
  mode_is_noss currency_100 = false /\
  _getQueryBootstrap currency_100 = Some instruction /\
  listeners (exec (actions_run Page currency_100 [setConversionTypes "length"])
                  start)
    = waiting Page currency_100 /\
  count is_next
    (log (exec (actions_run Page currency_100 [setConversionTypes "length"])
               start)) = 0 /\
  locals (exec (actions_run Page currency_100 [setConversionTypes "length"])
               start) = ∅ /\
  flux (exec (actions_run Page currency_100 [setConversionTypes "length"])
             start)
    = "{}+types=currency+value=100+types=length".
Proof.
  assert (Hm : mode_is_noss currency_100 = false) by (vm_compute; reflexivity).
  assert (Hq : _getQueryBootstrap currency_100 = Some instruction)
    by (vm_compute; reflexivity).
  split; [exact Hm|]. split; [exact Hq|].
  pose proof (actions_pending_without_outcome Page currency_100 instruction
                [setConversionTypes "length"] new ∅ Hm Hq eq_refl) as H.
  vm_compute in H. vm_compute. exact H.
Defined.

Lemma actions_error_forwards_error_witness :
  mode_is_noss currency_100 = false /\
  _getQueryBootstrap currency_100 = Some instruction /\
  locals (exec (actions_run Page currency_100
                  [conversionError "E"; updateConversions "[]"]) start) = ∅ /\
  log (exec (actions_run Page currency_100
               [conversionError "E"; updateConversions "[]"]) start)
    = (fired instruction ++ [call_removeAllActionListeners; call_flush;
                             call_next (Some "E")])%list /\
  listeners (exec (actions_run Page currency_100
                     [conversionError "E"; updateConversions "[]"]) start) = [].
Proof.
  assert (Hm : mode_is_noss currency_100 = false) by (vm_compute; reflexivity).
  assert (Hq : _getQueryBootstrap currency_100 = Some instruction)
    by (vm_compute; reflexivity).
  split; [exact Hm|]. split; [exact Hq|].
  pose proof (actions_error_forwards_error Page currency_100 instruction
                [] "E" [updateConversions "[]"] new ∅ Hm Hq eq_refl) as H.
  vm_compute in H. vm_compute. exact H.
Defined.

Lemma locals_frame_witness :
  "user" <> "bootstrapData" /\
  "user" <> "bootstrapComponent" /\
  locals (exec (fetch_run Page currency_100 (fulfilled "[]"))
               (serving new {["user" := "ann"]})) !! "user" = Some "ann" /\
  locals (exec (actions_run Page currency_100 [updateConversions "[]"])
               (serving new {["user" := "ann"]})) !! "user" = Some "ann".
Proof.
  split; [discriminate|]. split; [discriminate|].
  pose proof (locals_frame Page currency_100 (fulfilled "[]")
                [updateConversions "[]"] (serving new {["user" := "ann"]})
                new {["user" := "ann"]} "user"
                ltac:(discriminate) ltac:(discriminate)) as H.
  vm_compute in H. vm_compute. exact H.
Defined.

Lemma fetch_requests_independent_witness :
  (forall data, Flux_flush (Flux_bootstrap data new) = new) /\
  (forall data,
     ReactDOMServer_renderToString_throws Page (Flux_bootstrap data new)
     = None) /\
  (many_requests Page
     [(currency_100, fulfilled "[1]"); (currency_100_noss, fulfilled "[2]");
      (currency_100, rejected "E"); (currency_bare, fulfilled "[3]")] start).1
    = [ (alone Page currency_100 (fulfilled "[1]") start).1;
        (alone Page currency_100_noss (fulfilled "[2]") start).1;
        (alone Page currency_100 (rejected "E") start).1;
        (alone Page currency_bare (fulfilled "[3]") start).1 ] /\
  flux (many_requests Page
     [(currency_100, fulfilled "[1]"); (currency_100_noss, fulfilled "[2]");
      (currency_100, rejected "E"); (currency_bare, fulfilled "[3]")] start).2
    = new.
Proof.
  assert (Hflush : forall data, Flux_flush (Flux_bootstrap data new) = new)
    by (intros data; reflexivity).
  assert (Hrender : forall data,
            ReactDOMServer_renderToString_throws Page (Flux_bootstrap data new)
            = None)
    by (intros data; reflexivity).
  split; [exact Hflush|]. split; [exact Hrender|].
  pose proof (fetch_requests_independent Hflush Page
     [(currency_100, fulfilled "[1]"); (currency_100_noss, fulfilled "[2]");
      (currency_100, rejected "E"); (currency_bare, fulfilled "[3]")] start
     Hrender)
    as H.
  vm_compute in H. vm_compute. exact H.
Defined.

Lemma fetch_overlap_harmless_witness :
  (forall data, Flux_flush (Flux_bootstrap data new) = new) /\
  (forall data,
     ReactDOMServer_renderToString_throws Page (Flux_bootstrap data new)
     = None) /\
  (overlapped Page currency_100 (fulfilled "[1]")
                   currency_bare (fulfilled "[2]") start).1
    = (two_requests Page currency_100 (fulfilled "[1]")
                         currency_bare (fulfilled "[2]") start).1 /\
  flux (overlapped Page currency_100 (fulfilled "[1]")
                        currency_bare (fulfilled "[2]") start).2 = new.
Proof.
  assert (Hflush : forall data, Flux_flush (Flux_bootstrap data new) = new)
    by (intros data; reflexivity).
  assert (Hrender : forall data,
            ReactDOMServer_renderToString_throws Page (Flux_bootstrap data new)
            = None)
    by (intros data; reflexivity).
  split; [exact Hflush|]. split; [exact Hrender|].
  pose proof (fetch_overlap_harmless Hflush Page currency_100 (fulfilled "[1]")
                currency_bare (fulfilled "[2]") start Hrender) as H.
  vm_compute in H. vm_compute. exact H.
Defined.

Lemma click_fires_what_the_server_fired_witness :
  mode_is_noss currency_100 = false /\
  _getQueryBootstrap currency_100 = Some instruction /\
  exists e,
    last (log (exec (actions Page currency_100) start)) = Some e /\
    log (exec (Convert_onClick
                 {| ConvertProps.ConvertActions := ConvertProps.with_fetchConversions;
                    ConvertProps.ConvertStore :=
                      Some {| ConvertProps.types := "currency";
                              ConvertProps.value := Some "100" |} |}) start)
      = [e] /\
    (Convert_onClick
       {| ConvertProps.ConvertActions := ConvertProps.with_fetchConversions;
          ConvertProps.ConvertStore :=
            Some {| ConvertProps.types := "currency";
                    ConvertProps.value := Some "100" |} |} start).1 = returned.
Proof.
  assert (Hm : mode_is_noss currency_100 = false) by (vm_compute; reflexivity).
  assert (Hq : _getQueryBootstrap currency_100 = Some instruction)
    by (vm_compute; reflexivity).
  split; [exact Hm|]. split; [exact Hq|].
  pose proof (click_fires_what_the_server_fired Page currency_100 instruction
                start start Hm Hq) as H.
  vm_compute in H. vm_compute. exact H.
Defined.

Lemma actions_calls_next_at_most_once_witness :
  existsb terminal [@setConversionTypes string string "length"] = false /\
  count is_next
    (log (exec (actions_run Page currency_100 [setConversionTypes "length"])
               start)) = 0 /\
  count is_next
    (log (exec (actions_run Broken currency_100
                  [updateConversions "[1]"; updateConversions "[2]";
                   conversionError "E"; conversionError "late"]) start)) <= 1.
Proof.
  split; [reflexivity|].
  pose proof (actions_calls_next_at_most_once Page currency_100
                [setConversionTypes "length"] new ∅) as (_ & _ & _ & H).
  pose proof (actions_calls_next_at_most_once Broken currency_100
                [updateConversions "[1]"; updateConversions "[2]";
                 conversionError "E"; conversionError "late"] new ∅)
    as (H' & _).
  split; [|exact H'].
  assert (Hm : mode_is_noss currency_100 = false) by (vm_compute; reflexivity).
  assert (Hq : _getQueryBootstrap currency_100 = Some instruction)
    by (vm_compute; reflexivity).
  rewrite Hm, Hq in H. exact (H eq_refl).
Defined.

End ConcreteInvariants.
